(** * Pipecat observability plugin: capture policy, wire decoder, frame observer

    A shallow embedding of [observability_config.py], [protobuf_decoder.py]
    and [pipeline_observer.py], followed by the properties of the
    specification, each settled against the embedded code.

    Conventions.
    - A Python [dict] whose order is irrelevant is a [gmap]; a Python [int]
      is a [Z]; [bytes] is a [list byte]; [str] is a [string] (one character
      per code point, so the model reads ASCII text as Python does).
    - A Python [float] is a carrier [T] with the operations of the class
      [PyNum]. Two instances are given: [binary64] (IEEE 754 doubles, the
      arithmetic CPython runs) and [exact] (rationals, arithmetic without
      rounding).
    - External collaborators (the protobuf parser, the frame serializer, the
      [json] module, [format] on floats, the loguru sink) are the fields of
      an environment record [Env]; the clock reading of [time.time()] is an
      argument of the operation that reads it.
    - An operation that can raise returns a [pyresult]; stateful code runs in
      the monad [Py], which threads the world and keeps every mutation made
      before an exception, as Python does. *)

From Stdlib Require Import ZArith QArith Qminmax Floats String Ascii List Bool Lia Lqa.
From Stdlib Require Import DecimalString.
From stdpp Require Import gmap strings list fin_maps option.

Close Scope Q_scope.
Local Open Scope string_scope.
Local Open Scope Z_scope.

(** ** Python values, exceptions, results *)

#[local] Set Warnings "-register-all".

Inductive pyval :=
| PyNone
| PyBool (b : bool)
| PyInt (n : Z)
| PyFloat (x : float)
| PyStr (s : string)
| PyBytes (b : list Byte.byte)
| PyList (l : list pyval)
| PyDict (items : list (string * pyval)).

(** The exception classes the code names or can meet; all derive from
    [Exception], so a bare [except Exception] catches each of them. *)
Inductive exn :=
| TypeError
| ValueError
| JSONDecodeError
| RecursionError
| RuntimeError
| OtherError (name : string).

(** [isinstance(e, cls)] on exception classes: [json.JSONDecodeError] derives
    from [ValueError], [RecursionError] from [RuntimeError]. *)
Definition exn_isinstance (e cls : exn) : bool :=
  match e, cls with
  | TypeError, TypeError => true
  | ValueError, ValueError => true
  | JSONDecodeError, JSONDecodeError => true
  | JSONDecodeError, ValueError => true
  | RecursionError, RecursionError => true
  | RecursionError, RuntimeError => true
  | RuntimeError, RuntimeError => true
  | OtherError a, OtherError b => String.eqb a b
  | _, _ => false
  end.

(** [except (c1, c2, ...)] *)
Definition caught_by (classes : list exn) (e : exn) : bool :=
  existsb (exn_isinstance e) classes.

Inductive pyresult (A : Type) :=
| Return (a : A)
| Raise (e : exn).
Arguments Return {A} a.
Arguments Raise {A} e.

(** ** Python floats *)

Class PyNum (T : Type) := {
  f_of_Z : Z -> T;          (* float(n) for an int n *)
  fadd : T -> T -> T;
  fsub : T -> T -> T;
  fmul : T -> T -> T;
  fdiv : T -> T -> T;
  fltb : T -> T -> bool;    (* x < y *)
  fleb : T -> T -> bool;    (* x <= y *)
}.

(** [int] to [float] for the magnitudes the code converts (lengths, 0, 1000,
    1024), all below 2^63. *)
Definition Z_to_float (n : Z) : float :=
  if n <? 0 then PrimFloat.opp (PrimFloat.of_uint63 (Uint63.of_Z (- n)))
  else PrimFloat.of_uint63 (Uint63.of_Z n).

#[export] Instance binary64 : PyNum float := {|
  f_of_Z := Z_to_float;
  fadd := PrimFloat.add;
  fsub := PrimFloat.sub;
  fmul := PrimFloat.mul;
  fdiv := PrimFloat.div;
  fltb := PrimFloat.ltb;
  fleb := PrimFloat.leb;
|}.

#[export] Instance exact : PyNum Q := {|
  f_of_Z := inject_Z;
  fadd := Qplus;
  fsub := Qminus;
  fmul := Qmult;
  fdiv := Qdiv;
  fltb := fun x y => negb (Qle_bool y x);
  fleb := Qle_bool;
|}.

(** [sum] on doubles as CPython computes it from version 3.12 on (Neumaier's
    compensated summation); the observer's [py_sum] below adds left to
    right, as earlier versions do. The two agree in exact arithmetic. *)
Definition compensated_sum (xs : list float) : float :=
  match xs with
  | [] => Z_to_float 0
  | x :: rest =>
      let step (acc : float * float) (x : float) : float * float :=
        let t := PrimFloat.add acc.1 x in
        (t, if PrimFloat.leb (PrimFloat.abs x) (PrimFloat.abs acc.1)
            then PrimFloat.add acc.2 (PrimFloat.add (PrimFloat.sub acc.1 t) x)
            else PrimFloat.add acc.2 (PrimFloat.add (PrimFloat.sub x t) acc.1)) in
      let acc := fold_left step rest (PrimFloat.add (Z_to_float 0) x, Z_to_float 0) in
      if negb (PrimFloat.eqb acc.2 (Z_to_float 0)) && PrimFloat.is_finite acc.2
      then PrimFloat.add acc.1 acc.2
      else acc.1
  end.

(** What the bounds of a latency summary need from the comparisons, on the
    values [valid] singles out (for doubles: all but NaN). *)
Class OrderLaws (T : Type) `{PyNum T} (valid : T -> Prop) : Prop := {
  fle_refl : forall a : T, valid a -> fleb a a = true;
  fle_trans : forall a b c : T, fleb a b = true -> fleb b c = true -> fleb a c = true;
  flt_le : forall a b : T, fltb a b = true -> fleb a b = true;
  fle_total : forall a b : T, valid a -> valid b -> fltb a b = false -> fleb b a = true;
}.

Definition not_nan (x : float) : Prop := PrimFloat.is_nan x = false.

(** A key that orders the doubles other than NaN as their comparison does:
    sign class first, then exponent, then mantissa. *)
Definition sf_key (f : spec_float) : Z * Z * Z :=
  match f with
  | S754_nan => (0, 0, 0)
  | S754_zero _ => (0, 0, 0)
  | S754_infinity true => (-2, 0, 0)
  | S754_infinity false => (2, 0, 0)
  | S754_finite true m e => (-1, - e, Z.neg m)
  | S754_finite false m e => (1, e, Z.pos m)
  end.

Definition key_le (a b : Z * Z * Z) : Prop :=
  a.1.1 < b.1.1 \/ (a.1.1 = b.1.1 /\ (a.1.2 < b.1.2 \/ (a.1.2 = b.1.2 /\ a.2 <= b.2))).

Definition key_lt (a b : Z * Z * Z) : Prop :=
  a.1.1 < b.1.1 \/ (a.1.1 = b.1.1 /\ (a.1.2 < b.1.2 \/ (a.1.2 = b.1.2 /\ a.2 < b.2))).

(** The doubles that are not below zero (a zero of either sign, a positive
    number, plus infinity) and those that are numbers (zeros and finite
    values). *)
Definition sf_nonneg (f : spec_float) : bool :=
  match f with
  | S754_zero _ => true
  | S754_finite false _ _ => true
  | S754_infinity false => true
  | _ => false
  end.

Definition sf_finite (f : spec_float) : bool :=
  match f with
  | S754_zero _ | S754_finite _ _ _ => true
  | _ => false
  end.

(** ** Strings *)

Definition dquote : string := String (ascii_of_nat 34) EmptyString.
Definition newline : string := String (ascii_of_nat 10) EmptyString.

Fixpoint string_take (n : nat) (s : string) : string :=
  match n, s with
  | S k, String c rest => String c (string_take k rest)
  | _, _ => EmptyString
  end.

(** [s[:limit]]: a negative bound counts from the end. *)
Definition py_slice_to (limit : Z) (s : string) : string :=
  if limit <? 0
  then string_take (Z.to_nat (Z.of_nat (String.length s) + limit)) s
  else string_take (Z.to_nat limit) s.

Fixpoint spaces (n : nat) : string :=
  match n with
  | O => EmptyString
  | S k => String " " (spaces k)
  end.

(** [format(s, "<n")] and [format(s, ">n")] on strings. *)
Definition ljust (n : nat) (s : string) : string :=
  s ++ spaces (n - String.length s).
Definition rjust (n : nat) (s : string) : string :=
  spaces (n - String.length s) ++ s.

(** [str.replace(old, new)] for a non-empty [old]: occurrences are replaced
    left to right and do not overlap; [skip] counts the characters of a
    matched occurrence still to be dropped. *)
Fixpoint replace_from (old new : string) (skip : nat) (s : string) : string :=
  match s with
  | EmptyString => EmptyString
  | String c rest =>
      match skip with
      | S k => replace_from old new k rest
      | O =>
          if String.prefix old s
          then new ++ replace_from old new (String.length old - 1) rest
          else String c (replace_from old new 0 rest)
      end
  end.

Definition py_replace (old new s : string) : string := replace_from old new 0 s.

(** [str(n)] for an int. *)
Definition py_str_int (n : Z) : string := NilZero.string_of_int (Z.to_int n).

(** ** Frames *)

(** A frame class: its [__name__] and the names of its proper ancestors.
    Classes are identified by name. *)
Record pyclass := {
  cls_name : string;
  cls_bases : list string;
}.

(** [isinstance(obj, (c1, c2, ...))] for an object of class [c]. *)
Definition isinstance (c : pyclass) (classes : list string) : bool :=
  existsb (fun a => existsb (String.eqb a) classes) (cls_name c :: cls_bases c).

(** What the observer reads of a frame. An attribute that is missing or
    [None] is [None] here; [sample_rate] is an int when the frame has it. *)
Record Frame := {
  frame_class : pyclass;
  attr_text : option string;
  attr_audio : option (list Byte.byte);
  attr_sample_rate : option Z;
  attr_message : option pyval;
}.

Inductive FrameDirection := DOWNSTREAM | UPSTREAM | NO_DIRECTION.

(** [FramePushed]: the frame, its direction, and the names of the source and
    destination processors when present. *)
Record FramePushed := {
  fp_frame : Frame;
  fp_direction : FrameDirection;
  fp_source : option string;
  fp_destination : option string;
}.

(** ** observability_config.py *)

Definition _AUDIO_FRAMES : list string :=
  ["InputAudioRawFrame"; "OutputAudioRawFrame"].

Definition _TEXT_FRAMES : list string :=
  ["TextFrame"; "TranscriptionFrame"; "InterimTranscriptionFrame"; "LLMTextFrame"].

Record ObservabilityConfig := {
  enabled : bool;
  enable_binary_logging : bool;
  enable_audio_capture : bool;
  enable_text_capture : bool;
  enable_timing_metrics : bool;
  truncate_text_at : Z;
}.

Definition default_config : ObservabilityConfig := {|
  enabled := true;
  enable_binary_logging := true;
  enable_audio_capture := false;
  enable_text_capture := true;
  enable_timing_metrics := true;
  truncate_text_at := 80;
|}.

(** Audio-class and text-class events: instances of the gated classes. *)
Definition audio_class (frame : Frame) : bool := isinstance (frame_class frame) _AUDIO_FRAMES.
Definition text_class (frame : Frame) : bool := isinstance (frame_class frame) _TEXT_FRAMES.

Definition should_capture_frame (self : ObservabilityConfig) (frame : Frame) : bool :=
  if negb (enabled self) then false
  else if isinstance (frame_class frame) _AUDIO_FRAMES && negb (enable_audio_capture self) then false
  else if isinstance (frame_class frame) _TEXT_FRAMES && negb (enable_text_capture self) then false
  else true.

(** ** protobuf_decoder.py *)

(** The parsed [FrameProto]: [HasField(f)] is [Some] for each sub-message
    present. *)
Record TextProto := { text_text : string }.
Record TranscriptionProto := { transcription_text : string; transcription_user_id : string }.
Record AudioProto := { audio_audio : list Byte.byte; audio_sample_rate : Z }.
Record MessageProto := { message_data : string }.

Record FrameProto := {
  pb_text : option TextProto;
  pb_transcription : option TranscriptionProto;
  pb_audio : option AudioProto;
  pb_message : option MessageProto;
}.

Definition empty_proto : FrameProto :=
  {| pb_text := None; pb_transcription := None; pb_audio := None; pb_message := None |}.

Definition len_bytes (data : list Byte.byte) : Z := Z.of_nat (length data).

Section Decoder.

(** [FrameProto().ParseFromString]: [None] when it raises. *)
Variable ParseFromString : list Byte.byte -> option FrameProto.
(** [json.loads] *)
Variable json_loads : string -> pyresult pyval.

Definition decode_protobuf (data : list Byte.byte) : pyresult (gmap string pyval) :=
  match ParseFromString data with
  | None =>
      Return (<["type" := PyStr "unknown"]> (<["size_bytes" := PyInt (len_bytes data)]> ∅))
  | Some proto =>
      match pb_text proto with
      | Some t => Return (<["type" := PyStr "text"]> (<["text" := PyStr (text_text t)]> ∅))
      | None =>
      match pb_transcription proto with
      | Some t =>
          let result : gmap string pyval :=
            <["type" := PyStr "transcription"]> (<["text" := PyStr (transcription_text t)]> ∅) in
          Return (if String.eqb (transcription_user_id t) ""
                  then result
                  else <["user_id" := PyStr (transcription_user_id t)]> result)
      | None =>
      match pb_audio proto with
      | Some a =>
          Return (<["type" := PyStr "audio"]>
                 (<["size_bytes" := PyInt (len_bytes (audio_audio a))]>
                 (<["sample_rate" := PyInt (audio_sample_rate a)]> ∅)))
      | None =>
      match pb_message proto with
      | Some m =>
          let raw := message_data m in
          match json_loads raw with
          | Return parsed => Return (<["type" := PyStr "message"]> (<["data" := parsed]> ∅))
          | Raise e =>
              if caught_by [JSONDecodeError; TypeError] e
              then Return (<["type" := PyStr "message"]> (<["data" := PyStr raw]> ∅))
              else Raise e
          end
      | None =>
          Return (<["type" := PyStr "empty"]> (<["size_bytes" := PyInt (len_bytes data)]> ∅))
      end end end end
  end.

End Decoder.

Record ProtobufMessageLog := {
  _counts : gmap string Z;
  _bytes : gmap string Z;
  _records : list (gmap string pyval);
}.

(** [ProtobufMessageLog.__init__] *)
Definition new_log : ProtobufMessageLog := {|
  _counts := <["downstream" := 0]> (<["upstream" := 0]> ∅);
  _bytes := <["downstream" := 0]> (<["upstream" := 0]> ∅);
  _records := [];
|}.

(** [d.get(k, 0)] *)
Definition get0 (d : gmap string Z) (k : string) : Z := default 0 (d !! k).

(** [sum(d.values())] *)
Definition sum_values (d : gmap string Z) : Z :=
  map_fold (fun _ v acc => v + acc) 0 d.

(** [{"direction": direction, "size": size, **decoded}]: the keys of
    [decoded] win. *)
Definition composite (direction : string) (size : Z) (decoded : gmap string pyval)
  : gmap string pyval :=
  decoded ∪ (<["direction" := PyStr direction]> (<["size" := PyInt size]> ∅)).

Definition record (self : ProtobufMessageLog) (direction : string) (size : Z)
    (decoded : gmap string pyval) : ProtobufMessageLog := {|
  _counts := <[direction := get0 (_counts self) direction + 1]> (_counts self);
  _bytes := <[direction := get0 (_bytes self) direction + size]> (_bytes self);
  _records := (_records self ++ [composite direction size decoded])%list;
|}.

Record Stats := {
  downstream_count : Z;
  upstream_count : Z;
  downstream_bytes : Z;
  upstream_bytes : Z;
  total_messages : Z;
}.

Definition get_stats (self : ProtobufMessageLog) : Stats := {|
  downstream_count := get0 (_counts self) "downstream";
  upstream_count := get0 (_counts self) "upstream";
  downstream_bytes := get0 (_bytes self) "downstream";
  upstream_bytes := get0 (_bytes self) "upstream";
  total_messages := sum_values (_counts self);
|}.

Definition clear (self : ProtobufMessageLog) : ProtobufMessageLog := {|
  _counts := <["downstream" := 0]> (<["upstream" := 0]> ∅);
  _bytes := <["downstream" := 0]> (<["upstream" := 0]> ∅);
  _records := [];
|}.

(** A session of the accumulator: calls of [record] and [clear] in order. *)
Inductive LogCall :=
| CallRecord (direction : string) (size : Z) (decoded : gmap string pyval)
| CallClear.

Definition call (self : ProtobufMessageLog) (c : LogCall) : ProtobufMessageLog :=
  match c with
  | CallRecord direction size decoded => record self direction size decoded
  | CallClear => clear self
  end.

Definition calls (cs : list LogCall) (self : ProtobufMessageLog) : ProtobufMessageLog :=
  fold_left call cs self.

(** The directions the docstring of [record] names. *)
Definition documented_direction (c : LogCall) : bool :=
  match c with
  | CallRecord direction _ _ =>
      String.eqb direction "downstream" || String.eqb direction "upstream"
  | CallClear => true
  end.

(** The counters hold exactly the two documented directions. *)
Definition two_directions (m : gmap string Z) : Prop :=
  exists a b, m = <["downstream" := a]> (<["upstream" := b]> ∅).

(** ** pipeline_observer.py *)

(** The environment of an observer: the collaborators it calls. *)
Record Env (T : Type) := {
  (** [FrameProto().ParseFromString(data)]; [None] when it raises. *)
  ParseFromString : list Byte.byte -> option FrameProto;
  (** [json.loads(raw)] *)
  json_loads : string -> pyresult pyval;
  (** [json.dumps(obj, separators=(",", ":"))] *)
  json_dumps : pyval -> pyresult string;
  (** [await ProtobufFrameSerializer().serialize(frame)] *)
  serialize : Frame -> pyresult (option (list Byte.byte));
  (** [format(x, spec)] on a float *)
  format_float : string -> T -> string;
  (** [logger.opt(ansi=True).debug(line)]; [Some e] when the sink raises [e]. *)
  logger_debug : string -> option exn;
  (** [logger.opt(ansi=True).trace("  protobuf: {}", decoded)] *)
  logger_trace : gmap string pyval -> option exn;
}.
Arguments ParseFromString {T} _ _.
Arguments json_loads {T} _ _.
Arguments json_dumps {T} _ _.
Arguments serialize {T} _ _.
Arguments format_float {T} _ _ _.
Arguments logger_debug {T} _ _.
Arguments logger_trace {T} _ _.

Definition _FRAME_TAGS : list (string * string) := [
  ("UserStartedSpeakingFrame", "USR-START");
  ("UserStoppedSpeakingFrame", "USR-STOP");
  ("BotStartedSpeakingFrame", "BOT-START");
  ("BotStoppedSpeakingFrame", "BOT-STOP");
  ("TranscriptionFrame", "STT");
  ("InterimTranscriptionFrame", "STT-PART");
  ("LLMTextFrame", "LLM");
  ("TextFrame", "TEXT");
  ("InputAudioRawFrame", "AUDIO-IN");
  ("OutputAudioRawFrame", "AUDIO-OUT");
  ("TTSStartedFrame", "TTS-START");
  ("TTSStoppedFrame", "TTS-STOP");
  ("LLMFullResponseStartFrame", "LLM-START");
  ("LLMFullResponseEndFrame", "LLM-END");
  ("StartFrame", "START");
  ("EndFrame", "END");
  ("CancelFrame", "CANCEL");
  ("OutputTransportMessageFrame", "MSG")
].

Fixpoint dict_get (table : list (string * string)) (key : string) : option string :=
  match table with
  | [] => None
  | (k, v) :: rest => if String.eqb k key then Some v else dict_get rest key
  end.

Definition _get_tag (frame : Frame) : string :=
  let name := cls_name (frame_class frame) in
  match dict_get _FRAME_TAGS name with
  | Some tag => tag
  | None => py_slice_to 10 name
  end.

Definition _format_processor_name (name : string) : string :=
  let name := py_replace "Service#0" "" name in
  let name := py_replace "Transport#0" "" name in
  let name := py_replace "Processor#0" "" name in
  let name := py_replace "Aggregator#0" "" name in
  let name := py_replace "#0" "" name in
  let name := py_replace "FastAPIWebsocketInput" "WS-In" name in
  let name := py_replace "FastAPIWebsocketOutput" "WS-Out" name in
  let name := py_replace "Pipeline#0::" "" name in
  let name := py_replace "PipelineTask#0::" "Task:" name in
  let name := py_replace "Deepgram" "DG" name in
  let name := py_replace "OpenAIAgent" "Agent" name in
  let name := py_replace "LLMUser" "User" name in
  let name := py_replace "LLMAssistant" "Asst" name in
  name.

(** [if len(s) > limit: s = s[:limit] + "..."] *)
Definition truncate (limit : Z) (s : string) : string :=
  if Z.of_nat (String.length s) >? limit then py_slice_to limit s ++ "..." else s.

(** A background decode task: the coroutine
    [_background_serialize_and_log(frame, direction_label)]. *)
Record BgTask := {
  bg_frame : Frame;
  bg_direction_label : string;
}.

Inductive LogEntry :=
| LogDebug (line : string)
| LogTrace (decoded : gmap string pyval).

Record LatencyStats (T : Type) := {
  count : Z;
  min_ms : T;
  max_ms : T;
  avg_ms : T;
}.
Arguments count {T} _.
Arguments min_ms {T} _.
Arguments max_ms {T} _.
Arguments avg_ms {T} _.

Record PipelineObserver (T : Type) := {
  config : ObservabilityConfig;
  _protobuf_log : ProtobufMessageLog;
  _last_frame_time : option T;
  _frame_counts : gmap string Z;
  _latencies : gmap string (list T);
  _pending_tasks : gmap nat BgTask;
  _session_start : T;
}.
Arguments config {T} _.
Arguments _protobuf_log {T} _.
Arguments _last_frame_time {T} _.
Arguments _frame_counts {T} _.
Arguments _latencies {T} _.
Arguments _pending_tasks {T} _.
Arguments _session_start {T} _.

(** The observer together with what it acts on: the logging sink and the
    event loop's supply of task handles. *)
Record World (T : Type) := {
  observer : PipelineObserver T;
  sink : list LogEntry;
  next_task : nat;
}.
Arguments observer {T} _.
Arguments sink {T} _.
Arguments next_task {T} _.

(** The events of a session, as the event loop delivers them: the dispatcher
    pushes a frame (with the reading [time.time()] returns inside the hook),
    a scheduled background task runs to completion, or [reset()] is called. *)
Inductive Event (T : Type) :=
| Push (data : FramePushed) (now : T)
| TaskDone (id : nat)
| ResetAt (now : T).
Arguments Push {T} data now.
Arguments TaskDone {T} id.
Arguments ResetAt {T} now.

Section Observer.

Context {T : Type} `{PyNum T}.

(** Stateful code that may raise: the world after the call and its result.
    The world returned with [Raise e] holds every mutation made before the
    exception. *)
Definition Py (A : Type) : Type := World T -> World T * pyresult A.

#[export] Instance Py_ret : MRet Py := fun A a w => (w, Return a).
#[export] Instance Py_bind : MBind Py := fun A B f m w =>
  match m w with
  | (w', Return a) => f a w'
  | (w', Raise e) => (w', Raise e)
  end.

Definition lift {A} (r : pyresult A) : Py A := fun w => (w, r).

Definition get_self : Py (PipelineObserver T) := fun w => (w, Return (observer w)).

Definition modify_self (f : PipelineObserver T -> PipelineObserver T) : Py unit :=
  fun w => ({| observer := f (observer w); sink := sink w; next_task := next_task w |},
            Return tt).

(** [try: body / except Exception: pass] *)
Definition try_except_pass (body : Py unit) : Py unit :=
  fun w => (fst (body w), Return tt).

Definition set_last_frame_time (t : option T) (o : PipelineObserver T) : PipelineObserver T := {|
  config := config o;
  _protobuf_log := _protobuf_log o;
  _last_frame_time := t;
  _frame_counts := _frame_counts o;
  _latencies := _latencies o;
  _pending_tasks := _pending_tasks o;
  _session_start := _session_start o;
|}.

Definition set_frame_counts (c : gmap string Z) (o : PipelineObserver T) : PipelineObserver T := {|
  config := config o;
  _protobuf_log := _protobuf_log o;
  _last_frame_time := _last_frame_time o;
  _frame_counts := c;
  _latencies := _latencies o;
  _pending_tasks := _pending_tasks o;
  _session_start := _session_start o;
|}.

Definition set_latencies (l : gmap string (list T)) (o : PipelineObserver T) : PipelineObserver T := {|
  config := config o;
  _protobuf_log := _protobuf_log o;
  _last_frame_time := _last_frame_time o;
  _frame_counts := _frame_counts o;
  _latencies := l;
  _pending_tasks := _pending_tasks o;
  _session_start := _session_start o;
|}.

Definition set_pending_tasks (p : gmap nat BgTask) (o : PipelineObserver T) : PipelineObserver T := {|
  config := config o;
  _protobuf_log := _protobuf_log o;
  _last_frame_time := _last_frame_time o;
  _frame_counts := _frame_counts o;
  _latencies := _latencies o;
  _pending_tasks := p;
  _session_start := _session_start o;
|}.

Definition set_protobuf_log (l : ProtobufMessageLog) (o : PipelineObserver T) : PipelineObserver T := {|
  config := config o;
  _protobuf_log := l;
  _last_frame_time := _last_frame_time o;
  _frame_counts := _frame_counts o;
  _latencies := _latencies o;
  _pending_tasks := _pending_tasks o;
  _session_start := _session_start o;
|}.

(** [PipelineObserver.__init__]; [now] is the reading of [time.time()]. *)
Definition new_observer (cfg : option ObservabilityConfig) (now : T) : PipelineObserver T := {|
  config := default default_config cfg;
  _protobuf_log := new_log;
  _last_frame_time := None;
  _frame_counts := ∅;
  _latencies := ∅;
  _pending_tasks := ∅;
  _session_start := now;
|}.

Definition new_world (cfg : option ObservabilityConfig) (now : T) : World T := {|
  observer := new_observer cfg now;
  sink := [];
  next_task := 0%nat;
|}.

Variable env : Env T.

(** [logger.opt(ansi=True).debug(line)] *)
Definition log_debug (line : string) : Py unit := fun w =>
  match logger_debug env line with
  | Some e => (w, Raise e)
  | None => ({| observer := observer w; sink := (sink w ++ [LogDebug line])%list;
                next_task := next_task w |}, Return tt)
  end.

(** [logger.opt(ansi=True).trace("  protobuf: {}", decoded)] *)
Definition log_trace (decoded : gmap string pyval) : Py unit := fun w =>
  match logger_trace env decoded with
  | Some e => (w, Raise e)
  | None => ({| observer := observer w; sink := (sink w ++ [LogTrace decoded])%list;
                next_task := next_task w |}, Return tt)
  end.

Definition _extract_content (cfg : ObservabilityConfig) (frame : Frame)
  : pyresult (option string) :=
  match attr_text frame with
  | Some (String _ _ as text) =>
      Return (Some (dquote ++ truncate (truncate_text_at cfg) text ++ dquote))
  | _ =>
      match (if isinstance (frame_class frame) ["InputAudioRawFrame"; "OutputAudioRawFrame"]
             then attr_audio frame else None) with
      | Some audio =>
          let size_kb := fdiv (f_of_Z (len_bytes audio)) (f_of_Z 1024) in
          let rate := default 0 (attr_sample_rate frame) in
          Return (Some ("[" ++ format_float env ".1f" size_kb ++ "KB @ "
                        ++ py_str_int rate ++ "Hz]"))
      | None =>
          match attr_message frame with
          | Some (PyDict _ as message) =>
              match json_dumps env message with
              | Return compact => Return (Some (truncate (truncate_text_at cfg) compact))
              | Raise e =>
                  if caught_by [TypeError; ValueError] e then Return None else Raise e
              end
          | _ => Return None
          end
      end
  end.

(** The coroutine body of a background decode task. *)
Definition _background_serialize_and_log (frame : Frame) (direction_label : string)
  : Py unit :=
  try_except_pass (
    serialized ← lift (serialize env frame);
    match serialized with
    | Some ((_ :: _) as serialized) =>
        decoded ← lift (decode_protobuf (ParseFromString env) (json_loads env) serialized);
        modify_self (fun o =>
          set_protobuf_log
            (record (_protobuf_log o) direction_label (len_bytes serialized) decoded) o);;
        log_trace decoded
    | _ => mret tt
    end).

(** [asyncio.create_task(coro)], [self._pending_tasks.add(task)] and the
    registration of [self._pending_tasks.discard] as done-callback. *)
Definition create_task (task : BgTask) : Py unit := fun w =>
  ({| observer := set_pending_tasks (<[next_task w := task]> (_pending_tasks (observer w)))
                    (observer w);
      sink := sink w;
      next_task := S (next_task w) |}, Return tt).

(** The direction marker and label of the trace line. *)
Definition direction_markup (direction : FrameDirection) : string * string :=
  match direction with
  | DOWNSTREAM => ("<green>>></green>", "downstream")
  | UPSTREAM => ("<blue>&lt;&lt;</blue>", "upstream")
  | NO_DIRECTION => ("<dim>--</dim>", "control")
  end.

(** The trace line: the f-string, then the latency and the content when
    they are not empty. *)
Definition build_line (elapsed arrow tag frame_type source dest lat_str : string)
    (content : option string) : string :=
  let line :=
    "<dim>" ++ elapsed ++ "s</dim>  " ++ arrow ++ "  "
    ++ "[<bold>" ++ ljust 9 tag ++ "</bold>] " ++ ljust 30 frame_type ++ " "
    ++ "<dim>" ++ rjust 12 source ++ " -> " ++ ljust 12 dest ++ "</dim>" in
  let line := if String.eqb lat_str "" then line else line ++ "  " ++ lat_str in
  match content with
  | Some (String _ _ as content) => line ++ newline ++ spaces 26 ++ content
  | _ => line
  end.

Definition on_push_frame (data : FramePushed) (current_time : T) : Py unit :=
  self ← get_self;
  if negb (enabled (config self)) then mret tt else
  let frame := fp_frame data in
  let frame_type := cls_name (frame_class frame) in
  if negb (should_capture_frame (config self) frame) then mret tt else
  (* Latency *)
  let latency_ms :=
    match _last_frame_time self with
    | Some last => Some (fmul (fsub current_time last) (f_of_Z 1000))
    | None => None
    end in
  modify_self (set_last_frame_time (Some current_time));;
  match latency_ms with
  | Some l =>
      if enable_timing_metrics (config self)
      then modify_self (fun o =>
             set_latencies
               (<[frame_type := (default [] (_latencies o !! frame_type) ++ [l])%list]>
                  (_latencies o)) o)
      else mret tt
  | None => mret tt
  end;;
  (* Frame counts *)
  modify_self (fun o =>
    set_frame_counts (<[frame_type := get0 (_frame_counts o) frame_type + 1]> (_frame_counts o)) o);;
  (* Direction from FramePushed *)
  let arrow := fst (direction_markup (fp_direction data)) in
  let direction_label := snd (direction_markup (fp_direction data)) in
  (* Source / destination *)
  let source := _format_processor_name (default "?" (fp_source data)) in
  let dest := _format_processor_name (default "?" (fp_destination data)) in
  (* Timestamp *)
  let elapsed := fsub current_time (_session_start self) in
  (* Tag *)
  let tag := _get_tag frame in
  (* Latency string *)
  let lat_str :=
    match latency_ms with
    | Some l =>
        if enable_timing_metrics (config self)
        then format_float env ">6.1f" l ++ "ms" else ""
    | None => ""
    end in
  (* Content *)
  content ← lift (_extract_content (config self) frame);
  (* Build log line *)
  let line :=
    build_line (format_float env ">7.2f" elapsed) arrow tag frame_type source dest
      lat_str content in
  log_debug line;;
  (* Background protobuf decode *)
  if enable_binary_logging (config self)
  then create_task {| bg_frame := frame; bg_direction_label := direction_label |}
  else mret tt.

(** The line [on_push_frame] hands to the sink for an accepted event, given
    the observer before the call and the extracted content. *)
Definition hook_line (data : FramePushed) (current_time : T) (self : PipelineObserver T)
    (content : option string) : string :=
  let frame := fp_frame data in
  build_line
    (format_float env ">7.2f" (fsub current_time (_session_start self)))
    (fst (direction_markup (fp_direction data)))
    (_get_tag frame)
    (cls_name (frame_class frame))
    (_format_processor_name (default "?" (fp_source data)))
    (_format_processor_name (default "?" (fp_destination data)))
    match _last_frame_time self with
    | Some last =>
        if enable_timing_metrics (config self)
        then format_float env ">6.1f" (fmul (fsub current_time last) (f_of_Z 1000)) ++ "ms"
        else ""
    | None => ""
    end
    content.

Definition get_frame_counts (self : PipelineObserver T) : gmap string Z :=
  _frame_counts self.

(** [min(lats)], [max(lats)] and [sum(lats)] on a list with head [x]: the
    builtins keep the current item unless a later one compares strictly
    below (above) it; [sum] adds left to right from the int [0]. *)
Definition py_min (x : T) (xs : list T) : T :=
  fold_left (fun cur item => if fltb item cur then item else cur) xs x.
Definition py_max (x : T) (xs : list T) : T :=
  fold_left (fun cur item => if fltb cur item then item else cur) xs x.
Definition py_sum (xs : list T) : T :=
  fold_left fadd xs (f_of_Z 0).

Definition latency_entry (lats : list T) : option (LatencyStats T) :=
  match lats with
  | [] => None
  | x :: xs =>
      Some {| count := Z.of_nat (length lats);
              min_ms := py_min x xs;
              max_ms := py_max x xs;
              avg_ms := fdiv (py_sum lats) (f_of_Z (Z.of_nat (length lats))) |}
  end.

Definition get_latency_stats (self : PipelineObserver T) : gmap string (LatencyStats T) :=
  omap latency_entry (_latencies self).

(** [reset()]; [now] is the reading of [time.time()]. A cancelled task is
    dropped from the pending set and never runs. *)
Definition reset (now : T) : Py unit :=
  modify_self (fun o => {|
    config := config o;
    _protobuf_log := clear (_protobuf_log o);
    _last_frame_time := None;
    _frame_counts := ∅;
    _latencies := ∅;
    _pending_tasks := ∅;
    _session_start := now;
  |}).

(** A pending task runs its body; its done-callback then discards it. *)
Definition run_task (id : nat) : Py unit :=
  self ← get_self;
  match _pending_tasks self !! id with
  | Some task =>
      _background_serialize_and_log (bg_frame task) (bg_direction_label task);;
      modify_self (fun o => set_pending_tasks (delete id (_pending_tasks o)) o)
  | None => mret tt
  end.

Definition step (ev : Event T) : Py unit :=
  match ev with
  | Push data now => on_push_frame data now
  | TaskDone id => run_task id
  | ResetAt now => reset now
  end.

(** The world after a sequence of events; what a raising hook has already
    written stays written. *)
Definition run (evs : list (Event T)) (w : World T) : World T :=
  fold_left (fun w ev => fst (step ev w)) evs w.

(** The capture policy's verdict on an event, for the observer's policy. *)
Definition accepted (cfg : ObservabilityConfig) (ev : Event T) : bool :=
  match ev with
  | Push data _ => should_capture_frame cfg (fp_frame data)
  | _ => false
  end.

(** The number of accepted events of a session since its last [reset()]. *)
Definition accepted_events (cfg : ObservabilityConfig) (evs : list (Event T)) : Z :=
  fold_left (fun n ev =>
    match ev with
    | ResetAt _ => 0
    | _ => if accepted cfg ev then n + 1 else n
    end) evs 0.

End Observer.

(** ** A reader for the wire encoding

    The parser of [FrameProto] is external; the decoder takes it as a
    parameter. [Wire.parse] is a reference reader for the protobuf encoding
    of the [Frame] message (a [oneof] of [text = 1], [audio = 2],
    [transcription = 3], [message = 4]), used to run the decoder on concrete
    payloads: base-128 varints, tags [(field << 3) | wire_type], wire types
    0 (varint), 1 (64-bit), 2 (length-delimited) and 5 (32-bit). A truncated
    or overlong varint, a field number 0, a length past the end of the input
    and the wire types 3, 4, 6 and 7 are parse errors. Among several
    occurrences of a field the last one wins; bytes of a string field are
    read one character per byte. *)
Module Wire.

Inductive value :=
| Varint (n : N)
| Fixed64 (b : list Byte.byte)
| Delimited (b : list Byte.byte)
| Fixed32 (b : list Byte.byte).

(** A varint of at most [fuel] bytes, least significant group first. *)
Fixpoint varint (fuel : nat) (data : list Byte.byte) : option (N * list Byte.byte) :=
  match fuel, data with
  | S k, b :: rest =>
      let n := Byte.to_N b in
      if (n <? 128)%N then Some (n, rest)
      else match varint k rest with
           | Some (hi, rest') => Some ((n - 128) + 128 * hi, rest')%N
           | None => None
           end
  | _, _ => None
  end.

Definition split_at (n : nat) (data : list Byte.byte)
  : option (list Byte.byte * list Byte.byte) :=
  if (n <=? length data)%nat then Some (take n data, drop n data) else None.

(** One field: its number, its value and the rest of the input. *)
Definition field (data : list Byte.byte) : option (N * value * list Byte.byte) :=
  match varint 10 data with
  | None => None
  | Some (tag, rest) =>
      let number := (tag / 8)%N in
      let wire_type := (tag mod 8)%N in
      if (number =? 0)%N then None else
      match wire_type with
      | 0%N => match varint 10 rest with
               | Some (n, rest') => Some (number, Varint n, rest')
               | None => None
               end
      | 1%N => match split_at 8 rest with
               | Some (b, rest') => Some (number, Fixed64 b, rest')
               | None => None
               end
      | 2%N => match varint 10 rest with
               | Some (n, rest') =>
                   match split_at (N.to_nat n) rest' with
                   | Some (b, rest'') => Some (number, Delimited b, rest'')
                   | None => None
                   end
               | None => None
               end
      | 5%N => match split_at 4 rest with
               | Some (b, rest') => Some (number, Fixed32 b, rest')
               | None => None
               end
      | _ => None
      end
  end.

(** The fields of a message, in order; every field consumes a byte, so the
    length of the input bounds their number. *)
Fixpoint fields_fuel (fuel : nat) (data : list Byte.byte) : option (list (N * value)) :=
  match data with
  | [] => Some []
  | _ :: _ =>
      match fuel with
      | O => None
      | S k =>
          match field data with
          | None => None
          | Some (number, v, rest) =>
              match fields_fuel k rest with
              | Some fs => Some ((number, v) :: fs)
              | None => None
              end
          end
      end
  end.

Definition fields (data : list Byte.byte) : option (list (N * value)) :=
  fields_fuel (length data) data.

(** The last length-delimited (varint) occurrence of field [number]. *)
Definition last_delimited (number : N) (fs : list (N * value)) : option (list Byte.byte) :=
  fold_left (fun acc f =>
    match f with
    | (k, Delimited b) => if (k =? number)%N then Some b else acc
    | _ => acc
    end) fs None.

Definition last_varint (number : N) (fs : list (N * value)) : option N :=
  fold_left (fun acc f =>
    match f with
    | (k, Varint n) => if (k =? number)%N then Some n else acc
    | _ => acc
    end) fs None.

Definition str_field (number : N) (fs : list (N * value)) : string :=
  string_of_list_byte (default [] (last_delimited number fs)).

Definition text_frame (body : list Byte.byte) : option TextProto :=
  fs ← fields body; Some {| text_text := str_field 3 fs |}.

Definition audio_frame (body : list Byte.byte) : option AudioProto :=
  fs ← fields body;
  Some {| audio_audio := default [] (last_delimited 3 fs);
          audio_sample_rate := Z.of_N (default 0%N (last_varint 4 fs) mod 2 ^ 32) |}.

Definition transcription_frame (body : list Byte.byte) : option TranscriptionProto :=
  fs ← fields body;
  Some {| transcription_text := str_field 3 fs; transcription_user_id := str_field 4 fs |}.

Definition message_frame (body : list Byte.byte) : option MessageProto :=
  fs ← fields body; Some {| message_data := str_field 1 fs |}.

(** The members of the [oneof], in input order: a later member replaces an
    earlier one. *)
Fixpoint oneof (fs : list (N * value)) (acc : FrameProto) : option FrameProto :=
  match fs with
  | [] => Some acc
  | (1%N, Delimited b) :: rest =>
      t ← text_frame b;
      oneof rest {| pb_text := Some t; pb_transcription := None;
                    pb_audio := None; pb_message := None |}
  | (2%N, Delimited b) :: rest =>
      a ← audio_frame b;
      oneof rest {| pb_text := None; pb_transcription := None;
                    pb_audio := Some a; pb_message := None |}
  | (3%N, Delimited b) :: rest =>
      t ← transcription_frame b;
      oneof rest {| pb_text := None; pb_transcription := Some t;
                    pb_audio := None; pb_message := None |}
  | (4%N, Delimited b) :: rest =>
      m ← message_frame b;
      oneof rest {| pb_text := None; pb_transcription := None;
                    pb_audio := None; pb_message := Some m |}
  | _ :: rest => oneof rest acc
  end.

Definition parse (data : list Byte.byte) : option FrameProto :=
  fs ← fields data; oneof fs empty_proto.

(** The encoding of a length and of a [Frame] holding a [TextFrame] with the
    given text and default [id] and [name]. *)
Fixpoint encode_varint (fuel : nat) (n : N) : list Byte.byte :=
  match fuel with
  | O => []
  | S k =>
      if (n <? 128)%N then [default Byte.x00 (Byte.of_N n)]
      else default Byte.x00 (Byte.of_N (128 + n mod 128)) :: encode_varint k (n / 128)%N
  end.

Definition delimited (number : N) (body : list Byte.byte) : list Byte.byte :=
  (encode_varint 10 (8 * number + 2) ++ encode_varint 10 (N.of_nat (length body)) ++ body)%list.

Definition encode_text (text : string) : list Byte.byte :=
  delimited 1 (match text with
               | EmptyString => []
               | _ => delimited 3 (list_byte_of_string text)
               end).

End Wire.

(** ** Test doubles

    Environments for running the observer on concrete events. The parser is
    [Wire.parse]; the serializer encodes a frame that carries text as a
    [TextFrame] message and returns nothing for any other frame; the [json]
    doubles know the empty object only; floats are rendered as their format
    specification in braces. [quiet] has a sink that accepts every line,
    [strict] a sink that raises [ValueError] on every line. *)
Module Doubles.

Definition text_serializer (frame : Frame) : pyresult (option (list Byte.byte)) :=
  match attr_text frame with
  | Some text => Return (Some (Wire.encode_text text))
  | None => Return None
  end.

Definition loads (raw : string) : pyresult pyval :=
  if String.eqb raw "{}" then Return (PyDict []) else Raise JSONDecodeError.

Definition dumps (obj : pyval) : pyresult string :=
  match obj with
  | PyDict [] => Return "{}"
  | _ => Raise TypeError
  end.

Definition quiet (T : Type) : Env T := {|
  ParseFromString := Wire.parse;
  json_loads := loads;
  json_dumps := dumps;
  serialize := text_serializer;
  format_float := fun spec _ => "{" ++ spec ++ "}";
  logger_debug := fun _ => None;
  logger_trace := fun _ => None;
|}.

Definition strict (T : Type) : Env T := {|
  ParseFromString := Wire.parse;
  json_loads := loads;
  json_dumps := dumps;
  serialize := text_serializer;
  format_float := fun spec _ => "{" ++ spec ++ "}";
  logger_debug := fun _ => Some ValueError;
  logger_trace := fun _ => None;
|}.

Definition class_of (name : string) (bases : list string) : pyclass :=
  {| cls_name := name; cls_bases := bases |}.

Definition text_frame (text : string) : Frame := {|
  frame_class := class_of "TextFrame" ["DataFrame"; "Frame"];
  attr_text := Some text;
  attr_audio := None;
  attr_sample_rate := None;
  attr_message := None;
|}.

Definition audio_frame (audio : list Byte.byte) (rate : Z) : Frame := {|
  frame_class := class_of "InputAudioRawFrame" ["SystemFrame"; "AudioRawFrame"; "Frame"];
  attr_text := None;
  attr_audio := Some audio;
  attr_sample_rate := Some rate;
  attr_message := None;
|}.

Definition start_frame : Frame := {|
  frame_class := class_of "StartFrame" ["SystemFrame"; "Frame"];
  attr_text := None;
  attr_audio := None;
  attr_sample_rate := None;
  attr_message := None;
|}.

Definition pushed (frame : Frame) (direction : FrameDirection) : FramePushed := {|
  fp_frame := frame;
  fp_direction := direction;
  fp_source := Some "DeepgramSTTService#0";
  fp_destination := Some "LLMUserAggregator#0";
|}.

End Doubles.

(** ** Summaries and session counts *)

Record Summary (T : Type) := {
  frame_counts : gmap string Z;
  latency_stats : gmap string (LatencyStats T);
  protobuf_stats : Stats;
}.
Arguments frame_counts {T} _.
Arguments latency_stats {T} _.
Arguments protobuf_stats {T} _.

Section Sessions.

Context {T : Type} `{PyNum T}.

Definition get_summary (self : PipelineObserver T) : Summary T := {|
  frame_counts := get_frame_counts self;
  latency_stats := get_latency_stats self;
  protobuf_stats := get_stats (_protobuf_log self);
|}.

(** What the statistics of an observer are made of, apart from the decode
    accumulator and the task handles. *)
Definition statistics (self : PipelineObserver T)
  : ObservabilityConfig * option T * gmap string Z * gmap string (list T) * T :=
  (config self, _last_frame_time self, _frame_counts self, _latencies self,
   _session_start self).

(** The accepted events of one category since the last [reset()]. *)
Definition accepted_in_category (cfg : ObservabilityConfig) (category : string)
    (evs : list (Event T)) : Z :=
  fold_left (fun n ev =>
    match ev with
    | ResetAt _ => 0
    | Push data _ =>
        if should_capture_frame cfg (fp_frame data)
           && String.eqb (cls_name (frame_class (fp_frame data))) category
        then n + 1 else n
    | TaskDone _ => n
    end) evs 0.

(** The clock reading of the last accepted event since the last [reset()],
    and the reading the session clock was last started at. *)
Definition last_accepted_time (cfg : ObservabilityConfig) (evs : list (Event T))
  : option T :=
  fold_left (fun t ev =>
    match ev with
    | ResetAt _ => None
    | Push data now => if should_capture_frame cfg (fp_frame data) then Some now else t
    | TaskDone _ => t
    end) evs None.

Definition session_start_time (t0 : T) (evs : list (Event T)) : T :=
  fold_left (fun t ev =>
    match ev with
    | ResetAt now => now
    | _ => t
    end) evs t0.

(** The number of latency samples held, over all categories. *)
Definition total_samples (latencies : gmap string (list T)) : Z :=
  sum_values ((fun lats => Z.of_nat (length lats)) <$> latencies).

End Sessions.

(** The messages and bytes recorded under one direction since the last
    [clear()]. *)
Definition recorded_count (direction : string) (cs : list LogCall) : Z :=
  fold_left (fun n c =>
    match c with
    | CallRecord d _ _ => if String.eqb d direction then n + 1 else n
    | CallClear => 0
    end) cs 0.

Definition recorded_bytes (direction : string) (cs : list LogCall) : Z :=
  fold_left (fun n c =>
    match c with
    | CallRecord d size _ => if String.eqb d direction then n + size else n
    | CallClear => 0
    end) cs 0.

(** * Properties *)

(** ** The decode accumulator *)

Section LogFacts.

Implicit Types (m : gmap string Z) (self : ProtobufMessageLog).

Lemma sum_values_empty : sum_values ∅ = 0.
Proof. unfold sum_values. apply map_fold_empty. Qed.

Lemma sum_values_insert_fresh m k v :
  m !! k = None -> sum_values (<[k := v]> m) = v + sum_values m.
Proof.
  intros Hk. unfold sum_values.
  rewrite map_fold_insert_L; [reflexivity | intros; lia | exact Hk].
Qed.

Lemma sum_values_delete m k v :
  m !! k = Some v -> sum_values m = v + sum_values (delete k m).
Proof.
  intros Hk. unfold sum_values.
  rewrite (map_fold_delete_L _ _ k v m); [reflexivity | intros; lia | exact Hk].
Qed.

(** Overwriting a key replaces its old contribution to the sum. *)
Lemma sum_values_insert m k v :
  sum_values (<[k := v]> m) = sum_values m - get0 m k + v.
Proof.
  unfold get0. destruct (m !! k) as [old|] eqn:Hk; simpl.
  - rewrite <- insert_delete_eq.
    rewrite sum_values_insert_fresh by apply lookup_delete_eq.
    rewrite (sum_values_delete m k old Hk). lia.
  - rewrite sum_values_insert_fresh by exact Hk. lia.
Qed.

Lemma sum_values_two (a b : Z) :
  sum_values (<["downstream" := a]> (<["upstream" := b]> ∅)) = a + b.
Proof.
  rewrite sum_values_insert_fresh by reflexivity.
  rewrite sum_values_insert_fresh by reflexivity.
  rewrite sum_values_empty. lia.
Qed.

Lemma two_directions_total m :
  two_directions m -> sum_values m = get0 m "downstream" + get0 m "upstream".
Proof.
  intros (a & b & ->). rewrite sum_values_two. reflexivity.
Qed.

Lemma two_directions_call self c :
  documented_direction c = true ->
  two_directions (_counts self) -> two_directions (_counts (call self c)).
Proof.
  intros Hdir (a & b & Hm). destruct c as [direction size decoded|]; simpl in *.
  - rewrite Hm. apply orb_true_iff in Hdir as [Hd | Hd]; apply String.eqb_eq in Hd; subst.
    + exists (a + 1), b. unfold get0. rewrite lookup_insert_eq. simpl.
      apply insert_insert_eq.
    + exists a, (b + 1). unfold get0.
      rewrite lookup_insert_ne by discriminate. rewrite lookup_insert_eq. simpl.
      rewrite insert_insert_ne by discriminate.
      rewrite insert_insert_eq. reflexivity.
  - exists 0, 0. reflexivity.
Qed.

Lemma two_directions_calls cs : forall self,
  forallb documented_direction cs = true ->
  two_directions (_counts self) -> two_directions (_counts (calls cs self)).
Proof.
  induction cs as [|c cs IH]; intros self Hall Hinv; simpl in *; [exact Hinv|].
  apply andb_true_iff in Hall as [Hc Hcs].
  apply IH; [exact Hcs|]. apply two_directions_call; assumption.
Qed.

End LogFacts.

(** C3, as stated, fails: one message recorded under the direction
    ["control"] is counted in [total_messages] and in neither direction
    count. *)
Lemma total_messages_counts_control :
  let stats := get_stats (calls [CallRecord "control" 3 ∅] new_log) in
  total_messages stats = 1 /\ downstream_count stats + upstream_count stats = 0.
Proof. vm_compute. split; reflexivity. Qed.

(** C3 (amended): for every sequence of [record] and [clear] calls whose
    recorded directions are all ["downstream"] or ["upstream"], the stats of
    [get_stats] satisfy [total_messages = downstream_count + upstream_count]. *)
Theorem total_messages_is_sum_of_directions (cs : list LogCall) :
  forallb documented_direction cs = true ->
  let stats := get_stats (calls cs new_log) in
  total_messages stats = downstream_count stats + upstream_count stats.
Proof.
  intros Hall. simpl. apply two_directions_total.
  apply two_directions_calls; [exact Hall|].
  exists 0, 0. reflexivity.
Qed.

Lemma total_messages_is_sum_of_directions_witness :
  let cs := [CallRecord "downstream" 9 ∅; CallRecord "upstream" 4 ∅;
             CallClear; CallRecord "upstream" 7 ∅] in
  forallb documented_direction cs = true /\
  total_messages (get_stats (calls cs new_log))
  = downstream_count (get_stats (calls cs new_log))
    + upstream_count (get_stats (calls cs new_log)).
Proof.
  split; [reflexivity|].
  apply (total_messages_is_sum_of_directions
           [CallRecord "downstream" 9 ∅; CallRecord "upstream" 4 ∅;
            CallClear; CallRecord "upstream" 7 ∅]).
  reflexivity.
Defined.

(** C9: after any sequence of calls, [clear()] then [get_stats()] yields
    all-zero counters and an empty record log. *)
Theorem clear_resets_stats (cs : list LogCall) :
  let self := clear (calls cs new_log) in
  get_stats self = {| downstream_count := 0; upstream_count := 0;
                      downstream_bytes := 0; upstream_bytes := 0;
                      total_messages := 0 |}
  /\ _records self = [].
Proof.
  simpl. split; [|reflexivity].
  unfold get_stats, clear; simpl. rewrite sum_values_two. reflexivity.
Qed.

(** C10: [record] with a direction other than ["downstream"] and
    ["upstream"] appends a record and counts the message under that
    direction's own key: the four directional figures of [get_stats] are
    unchanged and [total_messages] grows by one. *)
Theorem record_extra_direction (self : ProtobufMessageLog) (direction : string)
    (size : Z) (decoded : gmap string pyval) :
  direction <> "downstream" -> direction <> "upstream" ->
  let self' := record self direction size decoded in
  _records self' = (_records self ++ [composite direction size decoded])%list
  /\ _counts self' !! direction = Some (get0 (_counts self) direction + 1)
  /\ downstream_count (get_stats self') = downstream_count (get_stats self)
  /\ upstream_count (get_stats self') = upstream_count (get_stats self)
  /\ downstream_bytes (get_stats self') = downstream_bytes (get_stats self)
  /\ upstream_bytes (get_stats self') = upstream_bytes (get_stats self)
  /\ total_messages (get_stats self') = total_messages (get_stats self) + 1.
Proof.
  intros Hd Hu. simpl. unfold get0.
  rewrite lookup_insert_eq.
  rewrite !lookup_insert_ne by congruence.
  repeat split; try reflexivity.
  rewrite sum_values_insert. unfold get0. lia.
Qed.

Lemma record_extra_direction_witness :
  let self := record new_log "downstream" 9 ∅ in
  let self' := record self "control" 9 ∅ in
  ("control" <> "downstream" /\ "control" <> "upstream")
  /\ _records self' = (_records self ++ [composite "control" 9 ∅])%list
  /\ _counts self' !! "control" = Some (get0 (_counts self) "control" + 1)
  /\ downstream_count (get_stats self') = downstream_count (get_stats self)
  /\ upstream_count (get_stats self') = upstream_count (get_stats self)
  /\ downstream_bytes (get_stats self') = downstream_bytes (get_stats self)
  /\ upstream_bytes (get_stats self') = upstream_bytes (get_stats self)
  /\ total_messages (get_stats self') = total_messages (get_stats self) + 1.
Proof.
  split; [split; discriminate|].
  apply (record_extra_direction (record new_log "downstream" 9 ∅) "control" 9 ∅);
    discriminate.
Defined.

(** ** The capture policy *)

(** C6: [should_capture_frame] is false when the policy is globally
    disabled; otherwise false for an audio-class event when audio capture is
    disabled; otherwise false for a text-class event when text capture is
    disabled; otherwise true. It is a function of the policy and the event
    alone. *)
Theorem should_capture_frame_decision (self : ObservabilityConfig) (frame : Frame) :
  (enabled self = false -> should_capture_frame self frame = false)
  /\ (enabled self = true -> audio_class frame = true ->
      enable_audio_capture self = false -> should_capture_frame self frame = false)
  /\ (enabled self = true ->
      (audio_class frame = false \/ enable_audio_capture self = true) ->
      text_class frame = true -> enable_text_capture self = false ->
      should_capture_frame self frame = false)
  /\ (enabled self = true ->
      (audio_class frame = false \/ enable_audio_capture self = true) ->
      (text_class frame = false \/ enable_text_capture self = true) ->
      should_capture_frame self frame = true)
  /\ should_capture_frame self frame
     = enabled self
       && (negb (audio_class frame) || enable_audio_capture self)
       && (negb (text_class frame) || enable_text_capture self).
Proof.
  unfold should_capture_frame, audio_class, text_class.
  destruct (enabled self), (enable_audio_capture self), (enable_text_capture self),
    (isinstance (frame_class frame) _AUDIO_FRAMES),
    (isinstance (frame_class frame) _TEXT_FRAMES); simpl;
    repeat split; intros; try reflexivity; try discriminate;
    repeat match goal with H : _ \/ _ |- _ => destruct H end; discriminate.
Qed.

(** ** Content extraction *)

Lemma string_take_length (n : nat) (s : string) :
  (n <= String.length s)%nat -> String.length (string_take n s) = n.
Proof.
  revert s. induction n as [|n IH]; intros s Hn; [reflexivity|].
  destruct s as [|c s]; simpl in *; [lia|]. rewrite IH; [reflexivity | lia].
Qed.

Lemma string_app_assoc (a b c : string) : (a ++ b) ++ c = a ++ b ++ c.
Proof.
  induction a as [|x a IH]; [reflexivity|].
  change ((String x a ++ b) ++ c) with (String x ((a ++ b) ++ c)).
  change (String x a ++ b ++ c) with (String x (a ++ b ++ c)).
  f_equal. exact IH.
Qed.

(** C7, as stated, fails: with [truncate_text_at = 5] the text
    ["hello world"] is displayed with its first five characters, [hello],
    not with [hell]. *)
Lemma extract_content_keeps_hello :
  let cfg := {| enabled := true; enable_binary_logging := true;
                enable_audio_capture := false; enable_text_capture := true;
                enable_timing_metrics := true; truncate_text_at := 5 |} in
  let shown := _extract_content (Doubles.quiet float) cfg (Doubles.text_frame "hello world") in
  shown = Return (Some (dquote ++ "hello..." ++ dquote))
  /\ shown <> Return (Some (dquote ++ "hell..." ++ dquote)).
Proof. split; [reflexivity | discriminate]. Qed.

(** C7 (amended): a text longer than a non-negative [truncate_text_at] is
    displayed, between double quotes, as its first [truncate_text_at]
    characters followed by the ellipsis ["..."]; with [truncate_text_at = 5]
    and ["hello world"] that is [hello...] between quotes. *)
Theorem extract_content_truncates {T : Type} `{PyNum T} (env : Env T)
    (cfg : ObservabilityConfig) (frame : Frame) (text : string) :
  attr_text frame = Some text ->
  0 <= truncate_text_at cfg < Z.of_nat (String.length text) ->
  let kept := string_take (Z.to_nat (truncate_text_at cfg)) text in
  _extract_content env cfg frame = Return (Some (dquote ++ kept ++ "..." ++ dquote))
  /\ Z.of_nat (String.length kept) = truncate_text_at cfg.
Proof.
  intros Htext Hlimit kept. split.
  - unfold _extract_content. rewrite Htext.
    destruct text as [|c rest]; [simpl in Hlimit; lia|].
    unfold truncate, py_slice_to.
    destruct (Z.gtb_spec (Z.of_nat (String.length (String c rest))) (truncate_text_at cfg)); [|lia].
    destruct (Z.ltb_spec (truncate_text_at cfg) 0); [lia|].
    subst kept. rewrite string_app_assoc. reflexivity.
  - subst kept. rewrite string_take_length; lia.
Qed.

Lemma extract_content_truncates_witness :
  let cfg := {| enabled := true; enable_binary_logging := true;
                enable_audio_capture := false; enable_text_capture := true;
                enable_timing_metrics := true; truncate_text_at := 5 |} in
  _extract_content (Doubles.quiet float) cfg (Doubles.text_frame "hello world")
  = Return (Some (dquote ++ "hello" ++ "..." ++ dquote))
  /\ Z.of_nat (String.length "hello") = 5.
Proof.
  apply (extract_content_truncates (Doubles.quiet float)
           {| enabled := true; enable_binary_logging := true;
              enable_audio_capture := false; enable_text_capture := true;
              enable_timing_metrics := true; truncate_text_at := 5 |}
           (Doubles.text_frame "hello world") "hello world").
  - reflexivity.
  - simpl. lia.
Defined.

(** ** The wire decoder *)

(** C2, as stated, fails: a payload that does not parse is reported with the
    type ["unknown"], not ["undecodable"], and noise that happens to parse
    is reported with the type of what it parses to (here ["text"]). *)
Lemma decode_noise :
  Wire.parse [Byte.xff] = None
  /\ decode_protobuf Wire.parse Doubles.loads [Byte.xff]
     = Return (<["type" := PyStr "unknown"]> (<["size_bytes" := PyInt 1]> ∅))
  /\ decode_protobuf Wire.parse Doubles.loads [Byte.xff]
     <> Return (<["type" := PyStr "undecodable"]> (<["size_bytes" := PyInt 1]> ∅))
  /\ decode_protobuf Wire.parse Doubles.loads [Byte.x0a; Byte.x00]
     = Return (<["type" := PyStr "text"]> (<["text" := PyStr ""]> ∅)).
Proof.
  repeat split; try reflexivity.
  intros Heq.
  apply (f_equal (fun r : pyresult (gmap string pyval) =>
                    match r with Return d => d !! "type" | Raise _ => None end)) in Heq.
  vm_compute in Heq. discriminate.
Qed.

(** C2 (amended): [decode_protobuf] returns exactly
    [{type: "unknown", size_bytes: len(payload)}] when the payload fails to
    parse; it returns [{type: "empty", size_bytes: len(payload)}] when the
    payload parses with no field set, as 0 bytes do; it raises only when the
    payload holds a structured message on which [json.loads] raises something
    other than [JSONDecodeError] or [TypeError]; and the type of a returned
    record is one of unknown, text, transcription, audio, message, empty. *)
Theorem decode_protobuf_cases (parse : list Byte.byte -> option FrameProto)
    (loads : string -> pyresult pyval) (data : list Byte.byte) :
  (parse data = None ->
   decode_protobuf parse loads data
   = Return (<["type" := PyStr "unknown"]> (<["size_bytes" := PyInt (len_bytes data)]> ∅)))
  /\ (parse data = Some empty_proto ->
      decode_protobuf parse loads data
      = Return (<["type" := PyStr "empty"]> (<["size_bytes" := PyInt (len_bytes data)]> ∅)))
  /\ decode_protobuf Wire.parse loads []
     = Return (<["type" := PyStr "empty"]> (<["size_bytes" := PyInt 0]> ∅))
  /\ (forall e, decode_protobuf parse loads data = Raise e ->
      exists proto m, parse data = Some proto /\ pb_message proto = Some m
        /\ loads (message_data m) = Raise e
        /\ caught_by [JSONDecodeError; TypeError] e = false)
  /\ (forall d, decode_protobuf parse loads data = Return d ->
      exists t, d !! "type" = Some (PyStr t)
        /\ In t ["unknown"; "text"; "transcription"; "audio"; "message"; "empty"]).
Proof.
  unfold decode_protobuf. split; [|split; [|split; [|split]]].
  - intros ->. reflexivity.
  - intros ->. reflexivity.
  - reflexivity.
  - intros e. destruct (parse data) as [proto|] eqn:Hparse; [|discriminate].
    destruct (pb_text proto); [discriminate|].
    destruct (pb_transcription proto); [discriminate|].
    destruct (pb_audio proto); [discriminate|].
    destruct (pb_message proto) as [m|] eqn:Hmessage; [|discriminate].
    destruct (loads (message_data m)) as [parsed|e'] eqn:Hloads; [discriminate|].
    destruct (caught_by [JSONDecodeError; TypeError] e') eqn:Hcaught; [discriminate|].
    intros [= ->]. exists proto, m. repeat split; assumption || reflexivity.
  - intros d. destruct (parse data) as [proto|].
    + destruct (pb_text proto).
      { intros [= <-]. exists "text". split; [reflexivity | simpl; auto]. }
      destruct (pb_transcription proto) as [t|].
      { intros [= <-]. exists "transcription". split; [|simpl; auto 6].
        destruct (String.eqb (transcription_user_id t) ""); [reflexivity|].
        rewrite lookup_insert_ne by discriminate. reflexivity. }
      destruct (pb_audio proto).
      { intros [= <-]. exists "audio". split; [reflexivity | simpl; auto 6]. }
      destruct (pb_message proto) as [m|].
      { destruct (loads (message_data m)) as [parsed|e'].
        - intros [= <-]. exists "message". split; [reflexivity | simpl; auto 8].
        - destruct (caught_by [JSONDecodeError; TypeError] e'); [|discriminate].
          intros [= <-]. exists "message". split; [reflexivity | simpl; auto 8]. }
      intros [= <-]. exists "empty". split; [reflexivity | simpl; auto 8].
    + intros [= <-]. exists "unknown". split; [reflexivity | simpl; auto].
Qed.

(** ** The frame observer *)

Section ObserverFacts.

Context {T : Type} `{PyNum T} (env : Env T).

Implicit Types (w : World T) (data : FramePushed) (now : T).

(** Case analysis of the hook's body once the event is accepted. *)
Ltac hook_cases w data :=
  unfold on_push_frame, hook_line, mbind, Py_bind, get_self;
  unfold modify_self, lift, log_debug, create_task, mret, Py_ret;
  destruct (_last_frame_time (observer w));
  destruct (enable_timing_metrics (config (observer w)));
  destruct (_extract_content env (config (observer w)) (fp_frame data));
  cbn beta iota zeta;
  repeat match goal with
         | |- context [logger_debug env ?l] => destruct (logger_debug env l)
         end;
  destruct (enable_binary_logging (config (observer w))); cbn.

Lemma accepted_enabled (cfg : ObservabilityConfig) (frame : Frame) :
  should_capture_frame cfg frame = true -> enabled cfg = true.
Proof.
  unfold should_capture_frame. destruct (enabled cfg); [reflexivity | discriminate].
Qed.

(** A rejected event leaves the world as it is. *)
Lemma on_push_frame_rejected data now w :
  should_capture_frame (config (observer w)) (fp_frame data) = false ->
  on_push_frame env data now w = (w, Return tt).
Proof.
  intros Hrej. unfold on_push_frame, mbind, Py_bind, get_self.
  destruct (enabled (config (observer w))); simpl; [|reflexivity].
  rewrite Hrej. reflexivity.
Qed.

(** What an accepted event writes, whether or not the hook then raises. *)
Lemma on_push_frame_accepted data now w :
  should_capture_frame (config (observer w)) (fp_frame data) = true ->
  let o := observer w in
  let o' := observer (fst (on_push_frame env data now w)) in
  let frame_type := cls_name (frame_class (fp_frame data)) in
  config o' = config o
  /\ _protobuf_log o' = _protobuf_log o
  /\ _session_start o' = _session_start o
  /\ _last_frame_time o' = Some now
  /\ _frame_counts o'
     = <[frame_type := get0 (_frame_counts o) frame_type + 1]> (_frame_counts o)
  /\ _latencies o'
     = match _last_frame_time o with
       | Some last =>
           if enable_timing_metrics (config o)
           then <[frame_type := (default [] (_latencies o !! frame_type)
                                 ++ [fmul (fsub now last) (f_of_Z 1000)])%list]>
                  (_latencies o)
           else _latencies o
       | None => _latencies o
       end.
Proof.
  intros Hacc. pose proof (accepted_enabled _ _ Hacc) as Hen.
  unfold on_push_frame, mbind, Py_bind, get_self. rewrite Hen, Hacc. cbn [negb].
  hook_cases w data; repeat split; reflexivity.
Qed.

(** The outcome of the hook on an accepted event: an exception of content
    extraction or of the sink goes to the caller as it is. *)
Lemma on_push_frame_outcome data now w :
  should_capture_frame (config (observer w)) (fp_frame data) = true ->
  snd (on_push_frame env data now w)
  = match _extract_content env (config (observer w)) (fp_frame data) with
    | Raise e => Raise e
    | Return content =>
        match logger_debug env (hook_line env data now (observer w) content) with
        | Some e => Raise e
        | None => Return tt
        end
    end.
Proof.
  intros Hacc. pose proof (accepted_enabled _ _ Hacc) as Hen.
  unfold on_push_frame, mbind, Py_bind, get_self. rewrite Hen, Hacc. cbn [negb].
  hook_cases w data; reflexivity.
Qed.

(** Content extraction raises only what [json.dumps] raises outside
    [TypeError] and [ValueError]. *)
Lemma extract_content_raise (cfg : ObservabilityConfig) (frame : Frame) (e : exn) :
  _extract_content env cfg frame = Raise e ->
  exists items, attr_message frame = Some (PyDict items)
    /\ json_dumps env (PyDict items) = Raise e
    /\ caught_by [TypeError; ValueError] e = false.
Proof.
  unfold _extract_content.
  destruct (attr_text frame) as [[|c text]|];
    (destruct (if isinstance (frame_class frame) ["InputAudioRawFrame"; "OutputAudioRawFrame"]
               then attr_audio frame else None); [discriminate|]) || discriminate.
  all: destruct (attr_message frame) as [[| | | | | | |items]|]; try discriminate.
  all: destruct (json_dumps env (PyDict items)) as [s|e'] eqn:Hdumps; try discriminate.
  all: destruct (caught_by [TypeError; ValueError] e') eqn:Hcaught; try discriminate.
  all: intros [= ->]; exists items; repeat split; assumption.
Qed.

(** The background task contains every exception of its body. *)
Lemma background_never_raises (frame : Frame) (label : string) w :
  snd (_background_serialize_and_log env frame label w) = Return tt.
Proof. reflexivity. Qed.

(** The background task touches the decode accumulator and the sink only. *)
Lemma background_fields (frame : Frame) (label : string) w :
  let o := observer w in
  let o' := observer (fst (_background_serialize_and_log env frame label w)) in
  config o' = config o
  /\ _frame_counts o' = _frame_counts o
  /\ _latencies o' = _latencies o
  /\ _last_frame_time o' = _last_frame_time o.
Proof.
  unfold _background_serialize_and_log, try_except_pass, mbind, Py_bind, lift.
  destruct (serialize env frame) as [[[|b serialized]|]|e]; cbn; auto.
  destruct (decode_protobuf _ _ _) as [decoded|e]; cbn; auto.
  unfold modify_self, log_trace.
  destruct (logger_trace env decoded); cbn; auto.
Qed.

Lemma run_task_never_raises (id : nat) w : snd (run_task env id w) = Return tt.
Proof.
  unfold run_task, mbind, Py_bind, get_self.
  destruct (_pending_tasks (observer w) !! id) as [task|]; [|reflexivity].
  unfold _background_serialize_and_log, try_except_pass. reflexivity.
Qed.

Lemma run_task_fields (id : nat) w :
  let o := observer w in
  let o' := observer (fst (run_task env id w)) in
  config o' = config o
  /\ _frame_counts o' = _frame_counts o
  /\ _latencies o' = _latencies o
  /\ _last_frame_time o' = _last_frame_time o.
Proof.
  unfold run_task, mbind, Py_bind, get_self.
  destruct (_pending_tasks (observer w) !! id) as [task|]; [|cbn; auto].
  pose proof (background_fields (bg_frame task) (bg_direction_label task) w) as Hbg.
  unfold _background_serialize_and_log, try_except_pass in *.
  cbn in *. exact Hbg.
Qed.

(** An accepted event that returns schedules, with binary logging on, one
    task carrying the frame and the label of its direction. *)
Lemma on_push_frame_schedules data now w :
  should_capture_frame (config (observer w)) (fp_frame data) = true ->
  enable_binary_logging (config (observer w)) = true ->
  snd (on_push_frame env data now w) = Return tt ->
  _pending_tasks (observer (fst (on_push_frame env data now w)))
  = <[next_task w := {| bg_frame := fp_frame data;
                        bg_direction_label := snd (direction_markup (fp_direction data)) |}]>
      (_pending_tasks (observer w)).
Proof.
  intros Hacc. pose proof (accepted_enabled _ _ Hacc) as Hen.
  unfold on_push_frame, mbind, Py_bind, get_self. rewrite Hen, Hacc. cbn [negb].
  hook_cases w data; intros Hbin Hret; try discriminate; reflexivity.
Qed.

(** A completed task whose frame serializes to a non-empty payload that
    decodes records it under the task's label. *)
Lemma run_task_records (id : nat) w (task : BgTask) (b : Byte.byte)
    (serialized : list Byte.byte) (decoded : gmap string pyval) :
  _pending_tasks (observer w) !! id = Some task ->
  serialize env (bg_frame task) = Return (Some (b :: serialized)) ->
  decode_protobuf (ParseFromString env) (json_loads env) (b :: serialized) = Return decoded ->
  _protobuf_log (observer (fst (run_task env id w)))
  = record (_protobuf_log (observer w)) (bg_direction_label task)
      (len_bytes (b :: serialized)) decoded.
Proof.
  intros Htask Hser Hdec.
  unfold run_task, mbind, Py_bind, get_self. rewrite Htask.
  unfold _background_serialize_and_log, try_except_pass, mbind, Py_bind, lift.
  rewrite Hser. cbn beta iota. rewrite Hdec.
  unfold modify_self, log_trace. destruct (logger_trace env decoded); reflexivity.
Qed.

Lemma step_config (ev : Event T) w :
  config (observer (fst (step env ev w))) = config (observer w).
Proof.
  destruct ev as [data now|id|now]; simpl.
  - destruct (should_capture_frame (config (observer w)) (fp_frame data)) eqn:Hacc.
    + apply on_push_frame_accepted. exact Hacc.
    + rewrite on_push_frame_rejected by exact Hacc. reflexivity.
  - apply run_task_fields.
  - reflexivity.
Qed.

(** One event moves the sum of the frame counts as it moves the number of
    accepted events. *)
Lemma step_counts (ev : Event T) w :
  sum_values (_frame_counts (observer (fst (step env ev w))))
  = match ev with
    | ResetAt _ => 0
    | _ => if accepted (config (observer w)) ev
           then sum_values (_frame_counts (observer w)) + 1
           else sum_values (_frame_counts (observer w))
    end.
Proof.
  destruct ev as [data now|id|now]; simpl.
  - destruct (should_capture_frame (config (observer w)) (fp_frame data)) eqn:Hacc.
    + destruct (on_push_frame_accepted data now w Hacc) as (_ & _ & _ & _ & -> & _).
      rewrite sum_values_insert. lia.
    + rewrite on_push_frame_rejected by exact Hacc. reflexivity.
  - destruct (run_task_fields id w) as (_ & -> & _). reflexivity.
  - apply sum_values_empty.
Qed.

Lemma run_counts (cfg : ObservabilityConfig) (evs : list (Event T)) : forall w n,
  config (observer w) = cfg ->
  sum_values (_frame_counts (observer w)) = n ->
  sum_values (_frame_counts (observer (run env evs w)))
  = fold_left (fun n ev =>
      match ev with
      | ResetAt _ => 0
      | _ => if accepted cfg ev then n + 1 else n
      end) evs n.
Proof.
  induction evs as [|ev evs IH]; intros w n Hcfg Hn; simpl; [exact Hn|].
  apply IH.
  - rewrite step_config. exact Hcfg.
  - rewrite step_counts, Hcfg, Hn. reflexivity.
Qed.

Lemma accepted_events_without_reset (cfg : ObservabilityConfig) (evs : list (Event T)) :
  (forall now, ~ In (ResetAt now) evs) ->
  accepted_events cfg evs = Z.of_nat (length (List.filter (accepted cfg) evs)).
Proof.
  unfold accepted_events. intros Hno.
  assert (Hgen : forall n,
    fold_left (fun n ev =>
      match ev with
      | ResetAt _ => 0
      | _ => if accepted cfg ev then n + 1 else n
      end) evs n = n + Z.of_nat (length (List.filter (accepted cfg) evs))).
  { induction evs as [|ev evs IH]; intros n; simpl; [lia|].
    rewrite IH by (intros now Hin; apply (Hno now); right; exact Hin).
    destruct ev as [data now|id|now]; simpl.
    - destruct (should_capture_frame cfg (fp_frame data)); simpl; lia.
    - lia.
    - exfalso. apply (Hno now). left. reflexivity. }
  rewrite Hgen. lia.
Qed.

End ObserverFacts.

(** C4: an event the capture policy rejects returns from the hook with the
    world unchanged (no count, no latency sample, no new previous
    timestamp); so after any sequence of events the frame counts sum to the
    number of accepted events (since the last reset, when the session has
    one), rejected events contributing nothing. *)
Theorem rejected_events_leave_no_trace {T : Type} `{PyNum T} (env : Env T) :
  (forall (data : FramePushed) (now : T) (w : World T),
     should_capture_frame (config (observer w)) (fp_frame data) = false ->
     on_push_frame env data now w = (w, Return tt))
  /\ (forall (cfg : option ObservabilityConfig) (t0 : T) (evs : list (Event T)),
        sum_values (get_frame_counts (observer (run env evs (new_world cfg t0))))
        = accepted_events (default default_config cfg) evs)
  /\ (forall (cfg : option ObservabilityConfig) (t0 : T) (evs : list (Event T)),
        (forall now, ~ In (ResetAt now) evs) ->
        sum_values (get_frame_counts (observer (run env evs (new_world cfg t0))))
        = Z.of_nat (length (List.filter (accepted (default default_config cfg)) evs))).
Proof.
  assert (Hsum : forall (cfg : option ObservabilityConfig) (t0 : T) (evs : list (Event T)),
    sum_values (get_frame_counts (observer (run env evs (new_world cfg t0))))
    = accepted_events (default default_config cfg) evs).
  { intros cfg t0 evs. unfold get_frame_counts, accepted_events.
    apply run_counts; [reflexivity | apply sum_values_empty]. }
  split; [|split].
  - intros data now w. apply on_push_frame_rejected.
  - exact Hsum.
  - intros cfg t0 evs Hno. rewrite Hsum. apply accepted_events_without_reset. exact Hno.
Qed.

(** C1, as stated, fails: the hook has no handler of its own, so an
    exception of the sink (here [ValueError] on the trace line of a text
    frame) reaches the caller. *)
Lemma hook_raises_when_sink_raises :
  snd (on_push_frame (Doubles.strict float)
         (Doubles.pushed (Doubles.text_frame "hi") DOWNSTREAM) 1%float
         (new_world None 0%float))
  = Raise ValueError.
Proof. vm_compute. reflexivity. Qed.

(** C1 (amended): [on_push_frame] returns normally on every event the policy
    rejects; on an accepted event it raises exactly when [json.dumps] raises
    something other than [TypeError] or [ValueError] while the content is
    extracted, or when the sink raises on the trace line, and that exception
    goes to the caller unchanged. The background task catches every
    exception of its body, so none of them reaches the caller. *)
Theorem hook_exceptions {T : Type} `{PyNum T} (env : Env T)
    (data : FramePushed) (now : T) (w : World T) :
  (should_capture_frame (config (observer w)) (fp_frame data) = false ->
   on_push_frame env data now w = (w, Return tt))
  /\ (should_capture_frame (config (observer w)) (fp_frame data) = true ->
      forall e, snd (on_push_frame env data now w) = Raise e <->
        (exists items, attr_message (fp_frame data) = Some (PyDict items)
           /\ json_dumps env (PyDict items) = Raise e
           /\ caught_by [TypeError; ValueError] e = false
           /\ _extract_content env (config (observer w)) (fp_frame data) = Raise e)
        \/ (exists content,
              _extract_content env (config (observer w)) (fp_frame data) = Return content
              /\ logger_debug env (hook_line env data now (observer w) content) = Some e))
  /\ (forall (frame : Frame) (label : string) (w' : World T),
        snd (_background_serialize_and_log env frame label w') = Return tt)
  /\ (forall (id : nat) (w' : World T), snd (run_task env id w') = Return tt).
Proof.
  split; [apply on_push_frame_rejected|]. split; [|split].
  - intros Hacc e. rewrite (on_push_frame_outcome env data now w Hacc).
    destruct (_extract_content env (config (observer w)) (fp_frame data))
      as [content|e'] eqn:Hextract.
    + destruct (logger_debug env (hook_line env data now (observer w) content))
        as [e'|] eqn:Hsink; split.
      * intros [= ->]. right. exists content. split; [reflexivity | exact Hsink].
      * intros [(items & _ & _ & _ & Hx) | (content' & Hx & Hs)]; [discriminate|].
        injection Hx as <-. rewrite Hsink in Hs. injection Hs as ->. reflexivity.
      * discriminate.
      * intros [(items & _ & _ & _ & Hx) | (content' & Hx & Hs)]; [discriminate|].
        injection Hx as <-. rewrite Hsink in Hs. discriminate.
    + split.
      * intros [= ->]. left.
        destruct (extract_content_raise env _ _ _ Hextract) as (items & Hm & Hd & Hc).
        exists items. repeat split; assumption.
      * intros [(items & _ & _ & _ & Hx) | (content' & Hx & _)]; [|discriminate].
        injection Hx as ->. reflexivity.
  - intros frame label w'. apply background_never_raises.
  - intros id w'. apply run_task_never_raises.
Qed.

(** ** Latency summaries *)

(** *** The order of doubles *)

Section FloatOrder.

Implicit Types (f : spec_float) (x y z : float).

Lemma SFleb_key f1 f2 :
  SFleb f1 f2 = true <->
  f1 <> S754_nan /\ f2 <> S754_nan /\ key_le (sf_key f1) (sf_key f2).
Proof.
  unfold SFleb, SFcompare, key_le.
  destruct f1 as [s1|s1| |s1 m1 e1], f2 as [s2|s2| |s2 m2 e2];
    try destruct s1; try destruct s2; cbn [sf_key fst snd];
    try change (Pos.compare_cont Eq m1 m2) with (Pos.compare m1 m2);
    try destruct (Z.compare_spec e1 e2); try destruct (Pos.compare_spec m1 m2);
    cbn [CompOpp];
    (split; [intros Hle; try discriminate Hle; repeat split; try discriminate; lia
            | intros (Hn1 & Hn2 & Hk); try congruence; try reflexivity; exfalso; lia]).
Qed.

Lemma SFltb_key f1 f2 :
  SFltb f1 f2 = true <->
  f1 <> S754_nan /\ f2 <> S754_nan /\ key_lt (sf_key f1) (sf_key f2).
Proof.
  unfold SFltb, SFcompare, key_lt.
  destruct f1 as [s1|s1| |s1 m1 e1], f2 as [s2|s2| |s2 m2 e2];
    try destruct s1; try destruct s2; cbn [sf_key fst snd];
    try change (Pos.compare_cont Eq m1 m2) with (Pos.compare m1 m2);
    try destruct (Z.compare_spec e1 e2); try destruct (Pos.compare_spec m1 m2);
    cbn [CompOpp];
    (split; [intros Hle; try discriminate Hle; repeat split; try discriminate; lia
            | intros (Hn1 & Hn2 & Hk); try congruence; try reflexivity; exfalso; lia]).
Qed.

Lemma not_nan_spec x : not_nan x -> Prim2SF x <> S754_nan.
Proof.
  unfold not_nan, PrimFloat.is_nan. rewrite FloatAxioms.eqb_spec. intros Hx Hnan.
  rewrite Hnan in Hx. discriminate.
Qed.

Lemma leb_key x y :
  PrimFloat.leb x y = true <->
  Prim2SF x <> S754_nan /\ Prim2SF y <> S754_nan
  /\ key_le (sf_key (Prim2SF x)) (sf_key (Prim2SF y)).
Proof. rewrite FloatAxioms.leb_spec. apply SFleb_key. Qed.

Lemma ltb_key x y :
  PrimFloat.ltb x y = true <->
  Prim2SF x <> S754_nan /\ Prim2SF y <> S754_nan
  /\ key_lt (sf_key (Prim2SF x)) (sf_key (Prim2SF y)).
Proof. rewrite FloatAxioms.ltb_spec. apply SFltb_key. Qed.

End FloatOrder.

(** Doubles other than NaN meet [OrderLaws]. *)
#[export] Instance binary64_order : OrderLaws float not_nan.
Proof.
  constructor; cbn [fleb fltb binary64].
  - intros a Ha. apply leb_key. pose proof (not_nan_spec a Ha).
    repeat split; try assumption. unfold key_le. lia.
  - intros a b c (Ha & Hb & Hab)%leb_key (_ & Hc & Hbc)%leb_key. apply leb_key.
    repeat split; try assumption. unfold key_le in *. lia.
  - intros a b (Ha & Hb & Hab)%ltb_key. apply leb_key.
    repeat split; try assumption. unfold key_le, key_lt in *. lia.
  - intros a b Ha%not_nan_spec Hb%not_nan_spec Hlt. apply leb_key.
    repeat split; try assumption.
    destruct (PrimFloat.ltb a b) eqn:E; [discriminate|].
    assert (Hn : ~ key_lt (sf_key (Prim2SF a)) (sf_key (Prim2SF b))).
    { intros Hk. assert (PrimFloat.ltb a b = true) by (apply ltb_key; auto). congruence. }
    unfold key_le, key_lt in *. lia.
Qed.

(** Rationals meet [OrderLaws]. *)
#[export] Instance exact_order : OrderLaws Q (fun _ => True).
Proof.
  constructor; cbn [fleb fltb exact].
  - intros a _. apply Qle_bool_iff. apply Qle_refl.
  - intros a b c Hab%Qle_bool_iff Hbc%Qle_bool_iff. apply Qle_bool_iff.
    eapply Qle_trans; eassumption.
  - intros a b Hlt. apply negb_true_iff in Hlt. apply Qle_bool_iff.
    destruct (Qlt_le_dec a b) as [Hl|Hl]; [apply Qlt_le_weak; exact Hl|].
    apply Qle_bool_iff in Hl. congruence.
  - intros a b _ _ Hlt. apply negb_false_iff in Hlt. exact Hlt.
Qed.

(** *** The sign of a latency *)

Section FloatSign.

Lemma shr_1_nonneg (mrs : shr_record) : 0 <= shr_m mrs -> 0 <= shr_m (shr_1 mrs).
Proof. destruct mrs as [[|[p|p|]|p] r s]; simpl; lia. Qed.

Lemma iter_pos_nonneg (n : positive) : forall mrs,
  0 <= shr_m mrs -> 0 <= shr_m (SpecFloat.iter_pos shr_1 n mrs).
Proof.
  induction n as [n IH|n IH|]; intros mrs Hm; simpl.
  - apply IH, IH, shr_1_nonneg, Hm.
  - apply IH, IH, Hm.
  - apply shr_1_nonneg, Hm.
Qed.

Lemma shr_fexp_nonneg (m e : Z) (l : location) :
  0 <= m -> 0 <= shr_m (fst (shr_fexp prec emax m e l)).
Proof.
  intros Hm. unfold shr_fexp, shr.
  assert (Hrec : 0 <= shr_m (shr_record_of_loc m l)) by (destruct l as [|[]]; exact Hm).
  destruct (fexp prec emax (Zdigits2 m + e) - e); simpl; try exact Hrec.
  apply iter_pos_nonneg, Hrec.
Qed.

Lemma round_nearest_even_nonneg (m : Z) (l : location) :
  0 <= m -> 0 <= round_nearest_even m l.
Proof.
  intros Hm. destruct l as [|[]]; simpl; try lia. destruct (Z.even m); lia.
Qed.

(** Rounding a non-negative mantissa gives a zero, a finite number or an
    infinity of the requested sign, never NaN. *)
Lemma binary_round_aux_sign (sx : bool) (mx ex : Z) (lx : location) :
  0 <= mx ->
  match binary_round_aux prec emax sx mx ex lx with
  | S754_zero s | S754_infinity s | S754_finite s _ _ => s = sx
  | S754_nan => False
  end.
Proof.
  intros Hm. unfold binary_round_aux.
  pose proof (shr_fexp_nonneg mx ex lx Hm) as H1.
  destruct (shr_fexp prec emax mx ex lx) as [mrs' e']. simpl in H1.
  pose proof (shr_fexp_nonneg _ e' loc_Exact
                (round_nearest_even_nonneg _ (loc_of_shr_record mrs') H1)) as H2.
  destruct (shr_fexp prec emax _ e' loc_Exact) as [mrs'' e'']. simpl in H2.
  destruct (shr_m mrs'') as [|m|m]; [reflexivity | | lia].
  destruct (e'' <=? emax - prec); reflexivity.
Qed.

Lemma binary_normalize_nonneg (m e : Z) :
  0 <= m -> sf_nonneg (binary_normalize prec emax m e false) = true.
Proof.
  intros Hm. destruct m as [|m|m]; [reflexivity | | lia].
  unfold binary_normalize, binary_round.
  destruct (shl_align m e _) as [mz ez].
  pose proof (binary_round_aux_sign false (Z.pos mz) ez loc_Exact ltac:(lia)) as Hs.
  destruct (binary_round_aux prec emax false (Z.pos mz) ez loc_Exact) as [s|s| |s ? ?];
    try contradiction; subst; reflexivity.
Qed.

Lemma SFmul_nonneg (x : spec_float) (m : positive) (e : Z) :
  sf_nonneg x = true -> sf_nonneg (SFmul prec emax x (S754_finite false m e)) = true.
Proof.
  destruct x as [s|[|]| |[|] mx ex]; simpl; try discriminate; intros _; try reflexivity.
  pose proof (binary_round_aux_sign false (Z.pos (mx * m)) (ex + e) loc_Exact ltac:(lia)) as Hs.
  destruct (binary_round_aux prec emax false _ _ loc_Exact) as [s|s| |s ? ?];
    try contradiction; subst; reflexivity.
Qed.

Lemma digits2_pos_bounds (p : positive) :
  2 ^ (Z.pos (digits2_pos p) - 1) <= Z.pos p < 2 ^ Z.pos (digits2_pos p).
Proof.
  induction p as [p IH|p IH|]; cbn [digits2_pos]; [| |simpl; lia].
  all: rewrite Pos2Z.inj_succ;
    replace (Z.succ (Z.pos (digits2_pos p)) - 1) with (Z.succ (Z.pos (digits2_pos p) - 1)) by lia;
    rewrite !Z.pow_succ_r by lia; lia.
Qed.

Lemma shl_align_value (mx : positive) (ex ez : Z) :
  ez <= ex -> Z.pos (fst (shl_align mx ex ez)) = Z.pos mx * 2 ^ (ex - ez).
Proof.
  intros Hle. unfold shl_align. destruct (ez - ex) as [|d|d] eqn:Hd; [| lia |].
  - replace (ex - ez) with 0 by lia. simpl. lia.
  - replace (ex - ez) with (Z.pos d) by lia. cbn [fst].
    change (Pos.iter xO mx d) with (shift_pos d mx).
    rewrite shift_pos_correct. rewrite Z.mul_comm. reflexivity.
Qed.

Lemma bounded_mantissa (m : positive) (e : Z) :
  bounded prec emax m e = true ->
  -1074 <= e /\ Z.pos m < 2 ^ 53 /\ (-1074 < e -> 2 ^ 52 <= Z.pos m).
Proof.
  unfold bounded, canonical_mantissa, fexp, SpecFloat.emin, prec, emax.
  intros [Hc _]%andb_true_iff. apply Z.eqb_eq in Hc.
  pose proof (digits2_pos_bounds m) as [Hlo Hhi].
  set (d := Z.pos (digits2_pos m)) in *.
  assert (Hd : d <= 53) by lia.
  split; [lia|]. split.
  - eapply Z.lt_le_trans; [exact Hhi|]. apply Z.pow_le_mono_r; lia.
  - intros He. assert (d = 53) as Hd53 by lia. rewrite Hd53 in Hlo. exact Hlo.
Qed.

(** A later finite number minus an earlier one is not below zero. *)
Lemma SFsub_nonneg (x y : spec_float) :
  valid_binary x = true -> valid_binary y = true ->
  sf_finite x = true -> sf_finite y = true ->
  SFleb y x = true ->
  sf_nonneg (SFsub prec emax x y) = true.
Proof.
  intros Vx Vy Fx Fy Hle. apply SFleb_key in Hle as (_ & _ & Hk). unfold key_le in Hk.
  destruct x as [sx|sx| |sx mx ex], y as [sy|sy| |sy my ey]; try discriminate;
    cbn [sf_key fst snd] in Hk.
  - destruct sx, sy; reflexivity.
  - destruct sy; cbn in Hk; [reflexivity | lia].
  - destruct sx; cbn in Hk; [lia | reflexivity].
  - cbn [SFsub]. apply binary_normalize_nonneg.
    cbn [valid_binary] in Vx, Vy.
    apply bounded_mantissa in Vx as (Hex & Hmx & Hnx).
    apply bounded_mantissa in Vy as (Hey & Hmy & Hny).
    rewrite !shl_align_value by lia.
    destruct sx, sy; cbn [cond_Zopp sf_key fst snd] in *.
    + (* both negative: ex <= ey *)
      destruct (Z.eq_dec ex ey) as [->|Hne].
      * rewrite Z.min_id, Z.sub_diag. simpl. lia.
      * assert (Hlt : ex < ey) by lia.
        rewrite Z.min_l by lia. rewrite Z.sub_diag.
        assert (Hp : 2 ^ 1 <= 2 ^ (ey - ex)) by (apply Z.pow_le_mono_r; lia).
        specialize (Hny ltac:(lia)). change (2 ^ 0) with 1. change (2 ^ 1) with 2 in Hp.
        change (2 ^ 53) with (2 * 2 ^ 52) in *. nia.
    + lia.
    + assert (0 < 2 ^ (ex - Z.min ex ey)) by (apply Z.pow_pos_nonneg; lia).
      assert (0 < 2 ^ (ey - Z.min ex ey)) by (apply Z.pow_pos_nonneg; lia).
      nia.
    + (* both positive: ey <= ex *)
      destruct (Z.eq_dec ex ey) as [->|Hne].
      * rewrite Z.min_id, Z.sub_diag. simpl. lia.
      * assert (Hlt : ey < ex) by lia.
        rewrite Z.min_r by lia. rewrite Z.sub_diag.
        assert (Hp : 2 ^ 1 <= 2 ^ (ex - ey)) by (apply Z.pow_le_mono_r; lia).
        specialize (Hnx ltac:(lia)). change (2 ^ 0) with 1. change (2 ^ 1) with 2 in Hp.
        change (2 ^ 53) with (2 * 2 ^ 52) in *. nia.
Qed.

Lemma is_finite_spec (x : float) :
  PrimFloat.is_finite x = true -> sf_finite (Prim2SF x) = true.
Proof.
  unfold PrimFloat.is_finite, PrimFloat.is_nan, PrimFloat.is_infinity.
  rewrite !FloatAxioms.eqb_spec, FloatAxioms.abs_spec.
  assert (Hinf : Prim2SF infinity = S754_infinity false) by (vm_compute; reflexivity).
  rewrite Hinf. destruct (Prim2SF x) as [s|[|]| |s m e]; intros Hfin;
    try reflexivity; cbv in Hfin; discriminate Hfin.
Qed.

Lemma SFleb_zero_nonneg (f : spec_float) :
  sf_nonneg f = true -> SFleb (S754_zero false) f = true.
Proof. destruct f as [s|[|]| |[|] m e]; try discriminate; reflexivity. Qed.

(** In doubles, for finite readings, a later reading minus an earlier one,
    scaled to milliseconds, is not below zero. *)
Lemma binary64_elapsed_nonneg (prev now : float) :
  PrimFloat.is_finite prev = true -> PrimFloat.is_finite now = true ->
  fleb prev now = true ->
  fleb (f_of_Z 0) (fmul (fsub now prev) (f_of_Z 1000)) = true.
Proof.
  cbn [fleb fmul fsub f_of_Z binary64]. intros Fp Fn Hle.
  rewrite FloatAxioms.leb_spec in *. rewrite FloatAxioms.mul_spec, FloatAxioms.sub_spec.
  assert (Hzero : Prim2SF (Z_to_float 0) = S754_zero false) by (vm_compute; reflexivity).
  assert (Hk : exists m e, Prim2SF (Z_to_float 1000) = S754_finite false m e)
    by (vm_compute; eauto).
  destruct Hk as (m & e & Hk). rewrite Hzero, Hk.
  apply SFleb_zero_nonneg. apply SFmul_nonneg.
  apply SFsub_nonneg; auto using Prim2SF_valid, is_finite_spec.
Qed.

End FloatSign.

(** In exact arithmetic the same holds for all readings. *)
Lemma exact_elapsed_nonneg (prev now : Q) :
  fleb prev now = true ->
  fleb (f_of_Z 0) (fmul (fsub now prev) (f_of_Z 1000)) = true.
Proof.
  cbn [fleb fmul fsub f_of_Z exact]. intros Hle.
  apply Qle_bool_iff in Hle. apply Qle_bool_iff.
  unfold inject_Z. nra.
Qed.

(** C5, as stated, fails: the sample is [now] minus the previous reading, and
    [time.time()] may return a lower value than before; with the readings 2
    then 1 the recorded latency is -1000 ms. *)
Lemma latency_negative_when_clock_steps_back :
  let push now := Push (Doubles.pushed (Doubles.text_frame "hi") DOWNSTREAM) now in
  let w := run (Doubles.quiet float) [push 2%float; push 1%float]
             (new_world None 0%float) in
  _latencies (observer w) !! "TextFrame" = Some [(-1000)%float]
  /\ fleb (f_of_Z 0) (-1000)%float = false.
Proof. vm_compute. split; reflexivity. Qed.

(** C5 (amended): a fresh or reset observer has no previous timestamp, and
    the first event accepted then records no latency sample. For a later
    accepted event, when timing metrics are enabled, the sample
    [(now - previous) * 1000] is appended to the sequence of the event's own
    category and no other sequence changes; in the doubles the code
    computes with, the sample is non-negative whenever the two clock
    readings are finite and [now] is not below the previous one (in exact
    arithmetic, whenever [now] is not below the previous one). Every
    accepted event advances the previous timestamp to [now], with timing
    metrics enabled or not. *)
Theorem latency_of_accepted_event :
  (forall (T : Type) (N : PyNum T) (env : Env T) (data : FramePushed) (now : T)
      (w : World T),
     should_capture_frame (config (observer w)) (fp_frame data) = true ->
     let o := observer w in
     let o' := observer (fst (on_push_frame env data now w)) in
     let frame_type := cls_name (frame_class (fp_frame data)) in
     (forall cfg t0, _last_frame_time (observer (new_world (T := T) cfg t0)) = None)
     /\ (forall (t : T) (w0 : World T), _last_frame_time (observer (fst (reset t w0))) = None)
     /\ _last_frame_time o' = Some now
     /\ (_last_frame_time o = None -> _latencies o' = _latencies o)
     /\ (enable_timing_metrics (config o) = false -> _latencies o' = _latencies o)
     /\ (forall prev, _last_frame_time o = Some prev ->
         enable_timing_metrics (config o) = true ->
         let sample := fmul (fsub now prev) (f_of_Z 1000) in
         _latencies o' !! frame_type
           = Some (default [] (_latencies o !! frame_type) ++ [sample])%list
         /\ (forall other, other <> frame_type ->
               _latencies o' !! other = _latencies o !! other)))
  /\ (forall (env : Env float) (data : FramePushed) (now prev : float) (w : World float),
        should_capture_frame (config (observer w)) (fp_frame data) = true ->
        _last_frame_time (observer w) = Some prev ->
        enable_timing_metrics (config (observer w)) = true ->
        PrimFloat.is_finite prev = true -> PrimFloat.is_finite now = true ->
        fleb prev now = true ->
        exists sample,
          _latencies (observer (fst (on_push_frame env data now w)))
            !! cls_name (frame_class (fp_frame data))
          = Some (default [] (_latencies (observer w)
                                !! cls_name (frame_class (fp_frame data)))
                  ++ [sample])%list
          /\ sample = fmul (fsub now prev) (f_of_Z 1000)
          /\ fleb (f_of_Z 0) sample = true)
  /\ (forall (env : Env Q) (data : FramePushed) (now prev : Q) (w : World Q),
        should_capture_frame (config (observer w)) (fp_frame data) = true ->
        _last_frame_time (observer w) = Some prev ->
        enable_timing_metrics (config (observer w)) = true ->
        fleb prev now = true ->
        exists sample,
          _latencies (observer (fst (on_push_frame env data now w)))
            !! cls_name (frame_class (fp_frame data))
          = Some (default [] (_latencies (observer w)
                                !! cls_name (frame_class (fp_frame data)))
                  ++ [sample])%list
          /\ sample = fmul (fsub now prev) (f_of_Z 1000)
          /\ fleb (f_of_Z 0) sample = true).
Proof.
  split; [|split].
  - intros T N env data now w Hacc o o' frame_type.
    destruct (on_push_frame_accepted env data now w Hacc) as (_ & _ & _ & Hlast & _ & Hlat).
    fold o o' frame_type in Hlast, Hlat.
    split; [reflexivity|]. split; [reflexivity|]. split; [exact Hlast|].
    split; [|split].
    + intros Hnone. rewrite Hlat, Hnone. reflexivity.
    + intros Hoff. rewrite Hlat, Hoff. destruct (_last_frame_time o); reflexivity.
    + intros prev Hprev Hon sample. rewrite Hlat, Hprev, Hon. split.
      * apply lookup_insert_eq.
      * intros other Hother. apply lookup_insert_ne. congruence.
  - intros env data now prev w Hacc Hprev Hon Fp Fn Hle.
    destruct (on_push_frame_accepted env data now w Hacc) as (_ & _ & _ & _ & _ & Hlat).
    rewrite Hprev, Hon in Hlat. rewrite Hlat.
    eexists. split; [apply lookup_insert_eq|]. split; [reflexivity|].
    apply binary64_elapsed_nonneg; assumption.
  - intros env data now prev w Hacc Hprev Hon Hle.
    destruct (on_push_frame_accepted env data now w Hacc) as (_ & _ & _ & _ & _ & Hlat).
    rewrite Hprev, Hon in Hlat. rewrite Hlat.
    eexists. split; [apply lookup_insert_eq|]. split; [reflexivity|].
    apply exact_elapsed_nonneg. exact Hle.
Qed.

Lemma latency_of_accepted_event_witness :
  let data := Doubles.pushed (Doubles.text_frame "hi") DOWNSTREAM in
  let w := run (Doubles.quiet float) [Push data 1%float] (new_world None 0%float) in
  let w' := fst (on_push_frame (Doubles.quiet float) data 0x1.4p+1%float w) in
  should_capture_frame (config (observer w)) (fp_frame data) = true
  /\ _last_frame_time (observer w) = Some 1%float
  /\ PrimFloat.is_finite 1%float = true /\ PrimFloat.is_finite 0x1.4p+1%float = true
  /\ fleb 1%float 0x1.4p+1%float = true
  /\ _last_frame_time (observer w') = Some 0x1.4p+1%float
  /\ exists sample,
       _latencies (observer w') !! "TextFrame" = Some [sample]
       /\ sample = 1500%float
       /\ fleb (f_of_Z 0) sample = true.
Proof.
  intros data w w'.
  destruct latency_of_accepted_event as (Hany & Hdoubles & _).
  assert (Hacc : should_capture_frame (config (observer w)) (fp_frame data) = true)
    by reflexivity.
  assert (Hprev : _last_frame_time (observer w) = Some 1%float) by reflexivity.
  destruct (Hany float binary64 (Doubles.quiet float) data 0x1.4p+1%float w Hacc)
    as (_ & _ & Hlast & _).
  destruct (Hdoubles (Doubles.quiet float) data 0x1.4p+1%float 1%float w
              Hacc Hprev eq_refl eq_refl eq_refl eq_refl)
    as (sample & Hlookup & Hsample & Hsign).
  repeat (split; [reflexivity || assumption|]).
  exists sample. split; [exact Hlookup|]. split; [|exact Hsign].
  rewrite Hsample. vm_compute. reflexivity.
Defined.

(** *** Minimum, maximum and mean of a latency sequence *)

Section Summary.

Context {T : Type} `{OrderLaws T valid}.

Implicit Types (x y : T) (xs : list T).

Lemma py_min_in xs : forall x, In (py_min x xs) (x :: xs).
Proof.
  unfold py_min. induction xs as [|y ys IH]; intros x; simpl; [left; reflexivity|].
  destruct (IH (if fltb y x then y else x)) as [Hhead|Htail].
  - destruct (fltb y x); [right; left | left]; exact Hhead.
  - right. right. exact Htail.
Qed.

Lemma py_max_in xs : forall x, In (py_max x xs) (x :: xs).
Proof.
  unfold py_max. induction xs as [|y ys IH]; intros x; simpl; [left; reflexivity|].
  destruct (IH (if fltb x y then y else x)) as [Hhead|Htail].
  - destruct (fltb x y); [right; left | left]; exact Hhead.
  - right. right. exact Htail.
Qed.

Lemma py_min_le xs : forall x,
  valid x -> Forall valid xs ->
  fleb (py_min x xs) x = true /\ Forall (fun y => fleb (py_min x xs) y = true) xs.
Proof.
  unfold py_min. induction xs as [|y ys IH]; intros x Hx Hxs; simpl.
  - split; [apply fle_refl; exact Hx | constructor].
  - inversion Hxs as [|? ? Hy Hys]; subst.
    destruct (fltb y x) eqn:Hlt.
    + destruct (IH y Hy Hys) as [Hm Hall].
      split; [|constructor; assumption].
      eapply fle_trans; [exact Hm | apply flt_le; exact Hlt].
    + destruct (IH x Hx Hys) as [Hm Hall].
      split; [exact Hm|]. constructor; [|exact Hall].
      eapply fle_trans; [exact Hm | apply (fle_total y x); assumption].
Qed.

Lemma py_max_ge xs : forall x,
  valid x -> Forall valid xs ->
  fleb x (py_max x xs) = true /\ Forall (fun y => fleb y (py_max x xs) = true) xs.
Proof.
  unfold py_max. induction xs as [|y ys IH]; intros x Hx Hxs; simpl.
  - split; [apply fle_refl; exact Hx | constructor].
  - inversion Hxs as [|? ? Hy Hys]; subst.
    destruct (fltb x y) eqn:Hlt.
    + destruct (IH y Hy Hys) as [Hm Hall].
      split; [|constructor; assumption].
      eapply fle_trans; [apply flt_le; exact Hlt | exact Hm].
    + destruct (IH x Hx Hys) as [Hm Hall].
      split; [exact Hm|]. constructor; [|exact Hall].
      eapply fle_trans; [apply (fle_total x y); assumption | exact Hm].
Qed.

(** Every sample lies between the reported minimum and maximum. *)
Lemma min_max_bounds x xs :
  Forall valid (x :: xs) ->
  fleb (py_min x xs) (py_max x xs) = true
  /\ Forall (fun y => fleb (py_min x xs) y = true /\ fleb y (py_max x xs) = true) (x :: xs).
Proof.
  intros Hall. inversion Hall as [|? ? Hx Hxs]; subst.
  destruct (py_min_le xs x Hx Hxs) as [Hmin Hmins].
  destruct (py_max_ge xs x Hx Hxs) as [Hmax Hmaxs].
  split; [eapply fle_trans; eassumption|].
  constructor; [split; assumption|].
  rewrite Forall_forall in *. intros y Hy. split; [apply Hmins | apply Hmaxs]; exact Hy.
Qed.

End Summary.

Section ExactMean.

Local Open Scope Q_scope.

Lemma exact_sum_bounds (lo hi : Q) (xs : list Q) : forall acc : Q,
  Forall (fun y => lo <= y /\ y <= hi) xs ->
  acc + inject_Z (Z.of_nat (length xs)) * lo <= fold_left Qplus xs acc
  /\ fold_left Qplus xs acc <= acc + inject_Z (Z.of_nat (length xs)) * hi.
Proof.
  induction xs as [|y ys IH]; intros acc Hall.
  - change (inject_Z (Z.of_nat (length (@nil Q)))) with 0. cbn [fold_left]. split; lra.
  - inversion Hall as [|? ? [Hlo Hhi] Hys]; subst.
    destruct (IH (acc + y) Hys) as [IHlo IHhi].
    cbn [fold_left]. rewrite length_cons, Nat2Z.inj_succ.
    unfold Z.succ. rewrite inject_Z_plus.
    set (k := inject_Z (Z.of_nat (length ys))) in *.
    change (inject_Z 1) with 1.
    split; nra.
Qed.

(** Without rounding the mean lies between the minimum and the maximum. *)
Lemma exact_mean_bounds (x : Q) (xs : list Q) :
  let lats := (x :: xs)%list in
  let avg := fdiv (py_sum lats) (f_of_Z (Z.of_nat (length lats))) in
  py_min x xs <= avg /\ avg <= py_max x xs.
Proof.
  intros lats avg.
  assert (Hall : Forall (fun _ : Q => True) lats) by (apply Forall_forall; auto).
  destruct (min_max_bounds x xs Hall) as [_ Hbounds].
  assert (Hq : Forall (fun y => py_min x xs <= y /\ y <= py_max x xs) lats).
  { rewrite Forall_forall in *. intros y Hy. destruct (Hbounds y Hy) as [Hl Hu].
    split; apply Qle_bool_iff; assumption. }
  destruct (exact_sum_bounds _ _ lats (inject_Z 0) Hq) as [Hlo Hhi].
  assert (Hpos : 0 < inject_Z (Z.of_nat (length lats))).
  { rewrite <- (Zlt_Qlt 0). subst lats. rewrite length_cons. lia. }
  subst avg. cbn [fdiv f_of_Z exact]. unfold py_sum. cbn [fadd f_of_Z exact].
  change (inject_Z 0) with 0 in *.
  split.
  - apply Qle_shift_div_l; [exact Hpos|]. lra.
  - apply Qle_shift_div_r; [exact Hpos|]. lra.
Qed.

End ExactMean.

(** C8, as stated, fails in double precision: four text events at the clock
    readings 0, 0.0037, 0.0074 and 0.0111 leave three equal samples of
    3.7 ms, whose sum divided by 3 rounds to the next double above 3.7, so
    [avg_ms] exceeds [max_ms]. *)
Lemma average_above_maximum :
  let push now := Push (Doubles.pushed (Doubles.text_frame "hi") DOWNSTREAM) now in
  let w := run (Doubles.quiet float)
             [push 0%float; push 0x1.e4f765fd8adacp-9%float;
              push 0x1.e4f765fd8adacp-8%float; push 0x1.6bb98c7e28241p-7%float]
             (new_world None 0%float) in
  exists st, get_latency_stats (observer w) !! "TextFrame" = Some st
    /\ count st = 3
    /\ min_ms st = max_ms st
    /\ fleb (avg_ms st) (max_ms st) = false
    /\ fltb (max_ms st) (avg_ms st) = true.
Proof.
  eexists. split; [vm_compute; reflexivity|].
  vm_compute. repeat split; reflexivity.
Qed.

(** C8 (amended): [get_latency_stats] omits every category whose latency
    sequence is empty; for a category with samples the entry has [count]
    equal to the length of the sequence, [min_ms] and [max_ms] are samples
    of the sequence, and [avg_ms] is the sum of the samples divided by their
    number as the arithmetic computes it. In double precision, when no
    sample is NaN, [min_ms <= max_ms] and every sample lies between them.
    In exact arithmetic [min_ms <= avg_ms <= max_ms]; in double precision
    the rounding of the sum and of the quotient can put [avg_ms] outside. *)
Theorem latency_stats_entries :
  (forall (T : Type) (N : PyNum T) (self : PipelineObserver T) (ft : string),
     match _latencies self !! ft with
     | None | Some [] => get_latency_stats self !! ft = None
     | Some (x :: xs) =>
         exists st, get_latency_stats self !! ft = Some st
           /\ count st = Z.of_nat (length (x :: xs))
           /\ In (min_ms st) (x :: xs)
           /\ In (max_ms st) (x :: xs)
           /\ avg_ms st = fdiv (py_sum (x :: xs)) (f_of_Z (Z.of_nat (length (x :: xs))))
     end)
  /\ (forall (self : PipelineObserver float) (ft : string) (lats : list float)
        (st : LatencyStats float),
        _latencies self !! ft = Some lats ->
        get_latency_stats self !! ft = Some st ->
        Forall not_nan lats ->
        fleb (min_ms st) (max_ms st) = true
        /\ Forall (fun y => fleb (min_ms st) y = true /\ fleb y (max_ms st) = true) lats)
  /\ (forall (self : PipelineObserver Q) (ft : string) (st : LatencyStats Q),
        get_latency_stats self !! ft = Some st ->
        (min_ms st <= avg_ms st)%Q /\ (avg_ms st <= max_ms st)%Q).
Proof.
  split; [|split].
  - intros T N self ft. unfold get_latency_stats. rewrite lookup_omap.
    destruct (_latencies self !! ft) as [[|x xs]|]; simpl; try reflexivity.
    eexists. split; [reflexivity|]. simpl.
    repeat split; [apply py_min_in | apply py_max_in].
  - intros self ft lats st Hlats Hst Hnan.
    unfold get_latency_stats in Hst. rewrite lookup_omap, Hlats in Hst.
    destruct lats as [|x xs]; simpl in Hst; [discriminate|].
    injection Hst as <-. cbn [min_ms max_ms].
    apply (min_max_bounds (valid := not_nan) x xs Hnan).
  - intros self ft st Hst.
    unfold get_latency_stats in Hst. rewrite lookup_omap in Hst.
    destruct (_latencies self !! ft) as [[|x xs]|]; simpl in Hst; try discriminate.
    injection Hst as <-. cbn [min_ms max_ms avg_ms]. apply exact_mean_bounds.
Qed.

(** ** Scenarios *)

(** A frame pushed with neither pipeline direction is decoded under the
    label ["control"]: its message is in [total_messages] and in neither
    direction count. *)
Example control_direction_is_recorded :
  let w := run (Doubles.quiet float)
             [Push (Doubles.pushed (Doubles.text_frame "hi") NO_DIRECTION) 1%float;
              TaskDone 0]
             (new_world None 0%float) in
  _counts (_protobuf_log (observer w)) !! "control" = Some 1
  /\ get_stats (_protobuf_log (observer w))
     = {| downstream_count := 0; upstream_count := 0;
          downstream_bytes := 0; upstream_bytes := 0; total_messages := 1 |}
  /\ _pending_tasks (observer w) = ∅.
Proof. vm_compute. repeat split; reflexivity. Qed.

(** With audio capture off and text capture on, an audio event and a text
    event leave one count, for the text event, and one scheduled task. *)
Example audio_event_is_invisible :
  let w := run (Doubles.quiet float)
             [Push (Doubles.pushed (Doubles.audio_frame [Byte.x00; Byte.x01] 16000) DOWNSTREAM)
                1%float;
              Push (Doubles.pushed (Doubles.text_frame "hi") DOWNSTREAM) 2%float]
             (new_world None 0%float) in
  get_frame_counts (observer w) = {["TextFrame" := 1]}
  /\ get_latency_stats (observer w) = ∅
  /\ size (_pending_tasks (observer w)) = 1%nat.
Proof. vm_compute. repeat split; reflexivity. Qed.

(** A text payload decodes to the text it was built from. *)
Example text_round_trip :
  decode_protobuf Wire.parse Doubles.loads (Wire.encode_text "hello")
  = Return (<["type" := PyStr "text"]> (<["text" := PyStr "hello"]> ∅)).
Proof. vm_compute. reflexivity. Qed.

(** [reset()] after accepted events empties the frame counts. *)
Example reset_empties_counts :
  let push now := Push (Doubles.pushed (Doubles.start_frame) DOWNSTREAM) now in
  let w := run (Doubles.quiet float)
             [push 1%float; push 2%float; push 3%float; ResetAt 4%float]
             (new_world None 0%float) in
  get_frame_counts (observer w) = ∅ /\ _session_start (observer w) = 4%float.
Proof. vm_compute. split; reflexivity. Qed.

(** The mean of three samples of 3.7 ms exceeds 3.7 under either summation. *)
Example mean_of_equal_samples :
  let lats := [0x1.d99999999999ap+1%float; 0x1.d99999999999ap+1%float;
               0x1.d99999999999ap+1%float] in
  fltb 0x1.d99999999999ap+1%float (fdiv (py_sum lats) (f_of_Z 3)) = true
  /\ fltb 0x1.d99999999999ap+1%float (fdiv (compensated_sum lats) (f_of_Z 3)) = true.
Proof. vm_compute. split; reflexivity. Qed.

(** * Further properties *)

(** ** The decode accumulator, continued *)

Section LogSessions.

Implicit Types (self : ProtobufMessageLog) (cs : list LogCall).

Lemma get0_insert (m : gmap string Z) (k k' : string) (v : Z) :
  get0 (<[k := v]> m) k' = if String.eqb k k' then v else get0 m k'.
Proof.
  unfold get0. destruct (String.eqb_spec k k') as [->|Hne].
  - rewrite lookup_insert_eq. reflexivity.
  - rewrite lookup_insert_ne by exact Hne. reflexivity.
Qed.

Lemma calls_snoc cs c self : calls (cs ++ [c]) self = call (calls cs self) c.
Proof. unfold calls. rewrite fold_left_app. reflexivity. Qed.

Lemma records_match_total cs : forall self,
  Z.of_nat (length (_records self)) = sum_values (_counts self) ->
  Z.of_nat (length (_records (calls cs self))) = sum_values (_counts (calls cs self)).
Proof.
  induction cs as [|c cs IH]; intros self Hinv; [exact Hinv|].
  apply IH. destruct c as [direction size decoded|]; simpl.
  - rewrite length_app, sum_values_insert. simpl. lia.
  - rewrite sum_values_two. reflexivity.
Qed.

Lemma direction_totals direction cs : forall self n b,
  get0 (_counts self) direction = n ->
  get0 (_bytes self) direction = b ->
  get0 (_counts (calls cs self)) direction
  = fold_left (fun n c =>
      match c with
      | CallRecord d _ _ => if String.eqb d direction then n + 1 else n
      | CallClear => 0
      end) cs n
  /\ get0 (_bytes (calls cs self)) direction
     = fold_left (fun n c =>
         match c with
         | CallRecord d size _ => if String.eqb d direction then n + size else n
         | CallClear => 0
         end) cs b.
Proof.
  induction cs as [|c cs IH]; intros self n b Hn Hb; [split; assumption|].
  apply IH; destruct c as [d size decoded|]; simpl.
  - rewrite get0_insert. destruct (String.eqb_spec d direction) as [->|]; congruence.
  - rewrite !get0_insert. unfold get0. rewrite lookup_empty.
    repeat destruct (String.eqb _ direction); reflexivity.
  - rewrite get0_insert. destruct (String.eqb_spec d direction) as [->|]; congruence.
  - rewrite !get0_insert. unfold get0. rewrite lookup_empty.
    repeat destruct (String.eqb _ direction); reflexivity.
Qed.

(** What [decode_protobuf] returns never holds the keys [record] adds. *)
Lemma decoded_keys (parse : list Byte.byte -> option FrameProto)
    (loads : string -> pyresult pyval) (data : list Byte.byte) (d : gmap string pyval) :
  decode_protobuf parse loads data = Return d ->
  d !! "direction" = None /\ d !! "size" = None.
Proof.
  unfold decode_protobuf.
  destruct (parse data) as [proto|]; [|intros [= <-]; split; reflexivity].
  destruct (pb_text proto); [intros [= <-]; split; reflexivity|].
  destruct (pb_transcription proto) as [t|].
  { destruct (String.eqb (transcription_user_id t) ""); intros [= <-]; split; reflexivity. }
  destruct (pb_audio proto); [intros [= <-]; split; reflexivity|].
  destruct (pb_message proto) as [m|]; [|intros [= <-]; split; reflexivity].
  destruct (loads (message_data m)) as [parsed|e]; [intros [= <-]; split; reflexivity|].
  destruct (caught_by [JSONDecodeError; TypeError] e); [|discriminate].
  intros [= <-]; split; reflexivity.
Qed.

End LogSessions.

(** X1: after any sequence of [record] and [clear] calls on a new
    accumulator, the record log holds as many records as [total_messages]
    reports. *)
Theorem records_length_is_total_messages (cs : list LogCall) :
  Z.of_nat (length (_records (calls cs new_log)))
  = total_messages (get_stats (calls cs new_log)).
Proof.
  apply records_match_total. simpl. rewrite sum_values_two. reflexivity.
Qed.

(** X2: after any sequence of [record] and [clear] calls on a new
    accumulator, the counter and the byte total of every direction are the
    number and the summed sizes of the messages recorded under that
    direction since the last [clear()]; for the two named directions these
    are the figures [get_stats] reports. *)
Theorem direction_counters (cs : list LogCall) (direction : string) :
  get0 (_counts (calls cs new_log)) direction = recorded_count direction cs
  /\ get0 (_bytes (calls cs new_log)) direction = recorded_bytes direction cs
  /\ downstream_count (get_stats (calls cs new_log)) = recorded_count "downstream" cs
  /\ upstream_count (get_stats (calls cs new_log)) = recorded_count "upstream" cs
  /\ downstream_bytes (get_stats (calls cs new_log)) = recorded_bytes "downstream" cs
  /\ upstream_bytes (get_stats (calls cs new_log)) = recorded_bytes "upstream" cs.
Proof.
  assert (Hzero : forall d, get0 (_counts new_log) d = 0 /\ get0 (_bytes new_log) d = 0).
  { intros d. simpl. rewrite !get0_insert. unfold get0. rewrite lookup_empty.
    repeat destruct (String.eqb _ d); split; reflexivity. }
  assert (Hdir : forall d,
    get0 (_counts (calls cs new_log)) d = recorded_count d cs
    /\ get0 (_bytes (calls cs new_log)) d = recorded_bytes d cs).
  { intros d. destruct (Hzero d) as [Hc Hb]. apply direction_totals; assumption. }
  destruct (Hdir direction) as [? ?].
  destruct (Hdir "downstream") as [? ?]. destruct (Hdir "upstream") as [? ?].
  repeat split; assumption.
Qed.

(** X3: the composite record [record] appends for a decoded payload keeps
    the direction and the size it was called with, and every field of the
    decoded record: [decode_protobuf] never returns the keys [direction] or
    [size], so the [**decoded] in the dict display overrides neither. *)
Theorem composite_keeps_label (parse : list Byte.byte -> option FrameProto)
    (loads : string -> pyresult pyval) (data : list Byte.byte)
    (direction : string) (size : Z) :
  match decode_protobuf parse loads data with
  | Return decoded =>
      composite direction size decoded !! "direction" = Some (PyStr direction)
      /\ composite direction size decoded !! "size" = Some (PyInt size)
      /\ (forall key v, decoded !! key = Some v ->
            composite direction size decoded !! key = Some v)
  | Raise _ => True
  end.
Proof.
  destruct (decode_protobuf parse loads data) as [decoded|e] eqn:Hdec; [|exact I].
  destruct (decoded_keys parse loads data decoded Hdec) as [Hd Hs].
  unfold composite. split; [|split].
  - rewrite lookup_union_r by exact Hd. reflexivity.
  - rewrite lookup_union_r by exact Hs. reflexivity.
  - intros key v Hkey. apply lookup_union_Some_l. exact Hkey.
Qed.


(** ** The frame observer, continued *)

Section SessionFacts.

Context {T : Type} `{PyNum T} (env : Env T).

Implicit Types (w : World T) (data : FramePushed) (now : T) (evs : list (Event T)).

Ltac hook_body w data :=
  unfold on_push_frame, hook_line, mbind, Py_bind, get_self;
  unfold modify_self, lift, log_debug, create_task, mret, Py_ret;
  destruct (_last_frame_time (observer w));
  destruct (enable_timing_metrics (config (observer w)));
  destruct (_extract_content env (config (observer w)) (fp_frame data));
  cbn beta iota zeta;
  repeat match goal with
         | |- context [logger_debug env ?l] => destruct (logger_debug env l)
         end;
  destruct (enable_binary_logging (config (observer w))); cbn.

(** What the hook does to the sink and to the task set on an accepted
    event. *)
Lemma on_push_frame_effects data now w :
  should_capture_frame (config (observer w)) (fp_frame data) = true ->
  let w' := fst (on_push_frame env data now w) in
  match snd (on_push_frame env data now w) with
  | Raise _ =>
      sink w' = sink w /\ next_task w' = next_task w
      /\ _pending_tasks (observer w') = _pending_tasks (observer w)
  | Return _ =>
      (exists content,
         _extract_content env (config (observer w)) (fp_frame data) = Return content
         /\ sink w' = (sink w ++ [LogDebug (hook_line env data now (observer w) content)])%list)
      /\ if enable_binary_logging (config (observer w))
         then next_task w' = S (next_task w)
              /\ _pending_tasks (observer w')
                 = <[next_task w :=
                       {| bg_frame := fp_frame data;
                          bg_direction_label := snd (direction_markup (fp_direction data)) |}]>
                     (_pending_tasks (observer w))
         else next_task w' = next_task w
              /\ _pending_tasks (observer w') = _pending_tasks (observer w)
  end.
Proof.
  intros Hacc. pose proof (accepted_enabled _ _ Hacc) as Hen.
  unfold on_push_frame, mbind, Py_bind, get_self. rewrite Hen, Hacc. cbn [negb].
  hook_body w data; repeat split; try reflexivity; eexists; split; reflexivity.
Qed.

Lemma background_statistics (frame : Frame) (label : string) w :
  statistics (observer (fst (_background_serialize_and_log env frame label w)))
  = statistics (observer w)
  /\ _pending_tasks (observer (fst (_background_serialize_and_log env frame label w)))
     = _pending_tasks (observer w)
  /\ next_task (fst (_background_serialize_and_log env frame label w)) = next_task w.
Proof.
  unfold _background_serialize_and_log, try_except_pass, mbind, Py_bind, lift.
  destruct (serialize env frame) as [[[|b serialized]|]|e]; cbn; auto.
  destruct (decode_protobuf _ _ _) as [decoded|e]; cbn; auto.
  unfold modify_self, log_trace.
  destruct (logger_trace env decoded); cbn; auto.
Qed.

Lemma run_task_statistics (id : nat) w :
  statistics (observer (fst (run_task env id w))) = statistics (observer w).
Proof.
  unfold run_task, mbind, Py_bind, get_self.
  destruct (_pending_tasks (observer w) !! id) as [task|]; [|reflexivity].
  pose proof (background_statistics (bg_frame task) (bg_direction_label task) w) as [Hbg _].
  unfold _background_serialize_and_log, try_except_pass in *.
  cbn in *. exact Hbg.
Qed.

(** The statistics after an event are a function of the statistics before
    it. *)
Lemma step_statistics (ev : Event T) w1 w2 :
  statistics (observer w1) = statistics (observer w2) ->
  statistics (observer (fst (step env ev w1))) = statistics (observer (fst (step env ev w2))).
Proof.
  intros Heq. pose proof Heq as Heq'. unfold statistics in Heq'.
  injection Heq' as Hcfg Hlast Hcounts Hlat Hstart.
  destruct ev as [data now|id|now]; simpl.
  - destruct (should_capture_frame (config (observer w1)) (fp_frame data)) eqn:Hacc.
    + pose proof Hacc as Hacc2. rewrite Hcfg in Hacc2.
      destruct (on_push_frame_accepted env data now w1 Hacc) as (C1 & _ & S1 & L1 & F1 & A1).
      destruct (on_push_frame_accepted env data now w2 Hacc2) as (C2 & _ & S2 & L2 & F2 & A2).
      unfold statistics. rewrite C1, C2, S1, S2, L1, L2, F1, F2, A1, A2.
      rewrite Hcfg, Hlast, Hcounts, Hlat, Hstart. reflexivity.
    + pose proof Hacc as Hacc2. rewrite Hcfg in Hacc2.
      rewrite !on_push_frame_rejected by assumption. exact Heq.
  - rewrite !run_task_statistics. exact Heq.
  - unfold statistics. cbn. rewrite Hcfg. reflexivity.
Qed.

Lemma run_statistics evs : forall w1 w2,
  statistics (observer w1) = statistics (observer w2) ->
  statistics (observer (run env evs w1)) = statistics (observer (run env evs w2)).
Proof.
  induction evs as [|ev evs IH]; intros w1 w2 Heq; [exact Heq|].
  simpl. apply IH. apply step_statistics. exact Heq.
Qed.

Lemma run_snoc evs (ev : Event T) w :
  run env (evs ++ [ev]) w = fst (step env ev (run env evs w)).
Proof. unfold run. rewrite fold_left_app. reflexivity. Qed.

Lemma accepted_events_snoc (cfg : ObservabilityConfig) evs (ev : Event T) :
  accepted_events cfg (evs ++ [ev])
  = match ev with
    | ResetAt _ => 0
    | _ => if accepted cfg ev then accepted_events cfg evs + 1 else accepted_events cfg evs
    end.
Proof. unfold accepted_events. rewrite fold_left_app. reflexivity. Qed.

Lemma accepted_in_category_snoc (cfg : ObservabilityConfig) (category : string) evs
    (ev : Event T) :
  accepted_in_category cfg category (evs ++ [ev])
  = match ev with
    | ResetAt _ => 0
    | Push data _ =>
        if should_capture_frame cfg (fp_frame data)
           && String.eqb (cls_name (frame_class (fp_frame data))) category
        then accepted_in_category cfg category evs + 1
        else accepted_in_category cfg category evs
    | TaskDone _ => accepted_in_category cfg category evs
    end.
Proof. unfold accepted_in_category. rewrite fold_left_app. reflexivity. Qed.

Lemma total_samples_empty : total_samples (T := T) ∅ = 0.
Proof. unfold total_samples. rewrite fmap_empty. apply sum_values_empty. Qed.

Lemma total_samples_append (latencies : gmap string (list T)) (category : string) (x : T) :
  total_samples (<[category := (default [] (latencies !! category) ++ [x])%list]> latencies)
  = total_samples latencies + 1.
Proof.
  unfold total_samples. rewrite fmap_insert, sum_values_insert.
  unfold get0. rewrite lookup_fmap.
  destruct (latencies !! category) as [lats|]; simpl; rewrite ?length_app; simpl; lia.
Qed.

(** The state of a session after its events, by induction on the events. *)
Lemma session_invariant (cfg0 : option ObservabilityConfig) (t0 : T) evs :
  let cfg := default default_config cfg0 in
  let o := observer (run env evs (new_world cfg0 t0)) in
  config o = cfg
  /\ sum_values (_frame_counts o) = accepted_events cfg evs
  /\ 0 <= accepted_events cfg evs
  /\ match _last_frame_time o with
     | None => accepted_events cfg evs = 0 /\ _latencies o = ∅
     | Some _ =>
         1 <= accepted_events cfg evs
         /\ if enable_timing_metrics cfg
            then total_samples (_latencies o) + 1 = accepted_events cfg evs
            else _latencies o = ∅
     end
  /\ (forall category,
        get0 (_frame_counts o) category = accepted_in_category cfg category evs
        /\ Z.of_nat (length (default [] (_latencies o !! category)))
           <= get0 (_frame_counts o) category).
Proof.
  intros cfg. induction evs as [|ev evs IH] using rev_ind.
  - cbn. split; [reflexivity|]. split; [reflexivity|]. split; [lia|].
    split; [split; reflexivity|].
    intros category. rewrite lookup_empty. unfold get0. rewrite lookup_empty.
    split; [reflexivity | simpl; lia].
  - cbv zeta in IH. destruct IH as (Hcfg & Hsum & Hpos & Hlast & Hcat).
    rewrite run_snoc, accepted_events_snoc.
    set (w := run env evs (new_world cfg0 t0)) in *.
    destruct ev as [data now|id|now]; cbn [step accepted].
    + destruct (should_capture_frame cfg (fp_frame data)) eqn:Hacc.
      * pose proof Hacc as Hacc'. rewrite <- Hcfg in Hacc'.
        destruct (on_push_frame_accepted env data now w Hacc')
          as (-> & _ & _ & -> & -> & ->).
        rewrite Hcfg. split; [reflexivity|].
        split; [rewrite sum_values_insert; lia|]. split; [lia|]. split.
        { split; [lia|].
          destruct (_last_frame_time (observer w)) as [last|].
          - destruct Hlast as [Hone Hlat].
            destruct (enable_timing_metrics cfg); [|exact Hlat].
            rewrite total_samples_append. lia.
          - destruct Hlast as [Hzero ->].
            destruct (enable_timing_metrics cfg); [|reflexivity].
            rewrite total_samples_empty. lia. }
        intros category. destruct (Hcat category) as [Hc Hl].
        rewrite accepted_in_category_snoc, Hacc. cbn [andb].
        rewrite get0_insert.
        destruct (String.eqb_spec (cls_name (frame_class (fp_frame data))) category)
          as [->|Hne].
        -- split; [lia|].
           destruct (_last_frame_time (observer w)); [|lia].
           destruct (enable_timing_metrics cfg); [|lia].
           rewrite lookup_insert_eq. simpl. rewrite length_app. simpl. lia.
        -- split; [exact Hc|].
           destruct (_last_frame_time (observer w)); [|exact Hl].
           destruct (enable_timing_metrics cfg); [|exact Hl].
           rewrite lookup_insert_ne by exact Hne. exact Hl.
      * pose proof Hacc as Hacc'. rewrite <- Hcfg in Hacc'.
        rewrite on_push_frame_rejected by exact Hacc'. cbn [fst].
        split; [exact Hcfg|]. split; [exact Hsum|]. split; [exact Hpos|].
        split; [exact Hlast|].
        intros category. destruct (Hcat category) as [Hc Hl].
        rewrite accepted_in_category_snoc, Hacc. cbn [andb]. split; assumption.
    + destruct (run_task_fields env id w) as (-> & -> & -> & ->).
      split; [exact Hcfg|]. split; [exact Hsum|]. split; [exact Hpos|].
      split; [exact Hlast|].
      intros category. destruct (Hcat category) as [Hc Hl].
      rewrite accepted_in_category_snoc. split; assumption.
    + cbn. rewrite Hcfg. split; [reflexivity|]. split; [apply sum_values_empty|].
      split; [lia|]. split; [split; reflexivity|].
      intros category. rewrite accepted_in_category_snoc, lookup_empty.
      unfold get0. rewrite lookup_empty. split; [reflexivity | simpl; lia].
Qed.

End SessionFacts.

(** X5: after any sequence of events on a new observer, the count of every
    category is the number of accepted events of that category since the
    last reset. *)
Theorem category_counts {T : Type} `{PyNum T} (env : Env T)
    (cfg0 : option ObservabilityConfig) (t0 : T) (evs : list (Event T))
    (category : string) :
  get0 (get_frame_counts (observer (run env evs (new_world cfg0 t0)))) category
  = accepted_in_category (default default_config cfg0) category evs.
Proof.
  destruct (session_invariant env cfg0 t0 evs) as (_ & _ & _ & _ & Hcat).
  apply Hcat.
Qed.

(** X6: after any sequence of events on a new observer, a category's entry
    in [get_latency_stats] never counts more samples than the category has
    frames in [get_frame_counts]. *)
Theorem latency_count_within_frame_count {T : Type} `{PyNum T} (env : Env T)
    (cfg0 : option ObservabilityConfig) (t0 : T) (evs : list (Event T))
    (category : string) :
  let o := observer (run env evs (new_world cfg0 t0)) in
  match get_latency_stats o !! category with
  | Some entry => 1 <= count entry <= get0 (get_frame_counts o) category
  | None => True
  end.
Proof.
  intros o. destruct (session_invariant env cfg0 t0 evs) as (_ & _ & _ & _ & Hcat).
  destruct (Hcat category) as [_ Hlen]. fold o in Hlen.
  unfold get_latency_stats. rewrite lookup_omap.
  destruct (_latencies o !! category) as [[|x xs]|]; simpl in *; try exact I.
  unfold get_frame_counts. lia.
Qed.

(** X7: after any sequence of events on a new observer, with timing metrics
    enabled the latency sequences hold one sample for every accepted event
    since the last reset but the first; with timing metrics disabled they
    hold none and [get_latency_stats] is empty. *)
Theorem latency_sample_total {T : Type} `{PyNum T} (env : Env T)
    (cfg0 : option ObservabilityConfig) (t0 : T) (evs : list (Event T)) :
  let cfg := default default_config cfg0 in
  let o := observer (run env evs (new_world cfg0 t0)) in
  if enable_timing_metrics cfg
  then total_samples (_latencies o) = Z.max 0 (accepted_events cfg evs - 1)
  else _latencies o = ∅ /\ get_latency_stats o = ∅.
Proof.
  intros cfg o.
  destruct (session_invariant env cfg0 t0 evs) as (_ & _ & Hpos & Hlast & _).
  fold cfg o in Hpos, Hlast.
  destruct (_last_frame_time o) as [last|].
  - destruct Hlast as [Hone Hlat].
    destruct (enable_timing_metrics cfg); [lia|].
    split; [exact Hlat|]. unfold get_latency_stats. rewrite Hlat. apply omap_empty.
  - destruct Hlast as [Hzero Hlat].
    destruct (enable_timing_metrics cfg).
    + rewrite Hlat, total_samples_empty. lia.
    + split; [exact Hlat|]. unfold get_latency_stats. rewrite Hlat. apply omap_empty.
Qed.

(** X8: [reset()] leaves an empty summary and no pending task, and from
    there the policy, the previous timestamp, the frame counts, the latency
    sequences and the session start evolve under any events exactly as in
    an observer newly built at the reset time with the same policy. *)
Theorem reset_is_fresh_start {T : Type} `{PyNum T} (env : Env T)
    (now : T) (w : World T) (evs : list (Event T)) :
  let w' := fst (reset now w) in
  get_summary (observer w')
  = {| frame_counts := ∅; latency_stats := ∅;
       protobuf_stats := {| downstream_count := 0; upstream_count := 0;
                            downstream_bytes := 0; upstream_bytes := 0;
                            total_messages := 0 |} |}
  /\ _pending_tasks (observer w') = ∅
  /\ statistics (observer (run env evs w'))
     = statistics (observer (run env evs (new_world (Some (config (observer w))) now))).
Proof.
  intros w'. split; [|split].
  - unfold get_summary, get_latency_stats, get_frame_counts, get_stats. cbn.
    rewrite omap_empty, sum_values_two. reflexivity.
  - reflexivity.
  - apply run_statistics. reflexivity.
Qed.

Section BinaryLoggingOff.

Context {T : Type} `{PyNum T} (env : Env T).

Lemma run_without_binary_logging (cfg : ObservabilityConfig) (t0 : T)
    (evs : list (Event T)) :
  enable_binary_logging cfg = false ->
  let o := observer (run env evs (new_world (Some cfg) t0)) in
  _pending_tasks o = ∅ /\ _protobuf_log o = new_log.
Proof.
  intros Hoff. induction evs as [|ev evs IH] using rev_ind; [split; reflexivity|].
  cbv zeta in *. destruct IH as [Hpending Hlog].
  destruct (session_invariant env (Some cfg) t0 evs) as (Hcfg & _). cbn in Hcfg.
  rewrite run_snoc. set (w := run env evs (new_world (Some cfg) t0)) in *.
  destruct ev as [data now|id|now]; cbn [step].
  - destruct (should_capture_frame (config (observer w)) (fp_frame data)) eqn:Hacc.
    + destruct (on_push_frame_accepted env data now w Hacc) as (_ & -> & _).
      split; [|exact Hlog].
      pose proof (on_push_frame_effects env data now w Hacc) as Heff. cbv zeta in Heff.
      destruct (snd (on_push_frame env data now w)).
      * destruct Heff as (_ & Hb). rewrite Hcfg, Hoff in Hb.
        destruct Hb as [_ ->]. exact Hpending.
      * destruct Heff as (_ & _ & ->). exact Hpending.
    + rewrite on_push_frame_rejected by exact Hacc. split; assumption.
  - unfold run_task, mbind, Py_bind, get_self. rewrite Hpending, lookup_empty.
    split; assumption.
  - split; reflexivity.
Qed.

End BinaryLoggingOff.

(** X9: with binary logging disabled no background task is ever scheduled
    and the decode accumulator is never written: after any sequence of
    events its statistics are zero and its record log is empty. *)
Theorem binary_logging_off_decodes_nothing {T : Type} `{PyNum T} (env : Env T)
    (cfg : ObservabilityConfig) (t0 : T) (evs : list (Event T)) :
  enable_binary_logging cfg = false ->
  let o := observer (run env evs (new_world (Some cfg) t0)) in
  _pending_tasks o = ∅
  /\ _records (_protobuf_log o) = []
  /\ get_stats (_protobuf_log o)
     = {| downstream_count := 0; upstream_count := 0;
          downstream_bytes := 0; upstream_bytes := 0; total_messages := 0 |}.
Proof.
  intros Hoff o.
  destruct (run_without_binary_logging env cfg t0 evs Hoff) as [Hpending Hlog].
  fold o in Hpending, Hlog. rewrite Hlog. split; [exact Hpending|].
  split; [reflexivity|]. unfold get_stats. cbn. rewrite sum_values_two. reflexivity.
Qed.

Lemma binary_logging_off_decodes_nothing_witness :
  let cfg := {| enabled := true; enable_binary_logging := false;
                enable_audio_capture := false; enable_text_capture := true;
                enable_timing_metrics := true; truncate_text_at := 80 |} in
  let evs := [Push (Doubles.pushed (Doubles.text_frame "hi") DOWNSTREAM) 1%float;
              TaskDone 0;
              Push (Doubles.pushed Doubles.start_frame UPSTREAM) 2%float] in
  let o := observer (run (Doubles.quiet float) evs (new_world (Some cfg) 0%float)) in
  enable_binary_logging cfg = false
  /\ _pending_tasks o = ∅
  /\ _records (_protobuf_log o) = []
  /\ get_stats (_protobuf_log o)
     = {| downstream_count := 0; upstream_count := 0;
          downstream_bytes := 0; upstream_bytes := 0; total_messages := 0 |}.
Proof.
  split; [reflexivity|].
  apply (binary_logging_off_decodes_nothing (Doubles.quiet float)
           {| enabled := true; enable_binary_logging := false;
              enable_audio_capture := false; enable_text_capture := true;
              enable_timing_metrics := true; truncate_text_at := 80 |}
           0%float
           [Push (Doubles.pushed (Doubles.text_frame "hi") DOWNSTREAM) 1%float;
            TaskDone 0;
            Push (Doubles.pushed Doubles.start_frame UPSTREAM) 2%float]).
  reflexivity.
Defined.

(** X10: when the hook raises, the event was an accepted one and is already
    counted and timestamped, but nothing was written to the sink and no
    background task was scheduled for it. *)
Theorem raising_hook_effects {T : Type} `{PyNum T} (env : Env T)
    (data : FramePushed) (now : T) (w : World T) (e : exn) :
  snd (on_push_frame env data now w) = Raise e ->
  let w' := fst (on_push_frame env data now w) in
  let frame_type := cls_name (frame_class (fp_frame data)) in
  should_capture_frame (config (observer w)) (fp_frame data) = true
  /\ get0 (_frame_counts (observer w')) frame_type
     = get0 (_frame_counts (observer w)) frame_type + 1
  /\ _last_frame_time (observer w') = Some now
  /\ sink w' = sink w
  /\ _pending_tasks (observer w') = _pending_tasks (observer w)
  /\ _protobuf_log (observer w') = _protobuf_log (observer w).
Proof.
  intros Hraise w' frame_type.
  destruct (should_capture_frame (config (observer w)) (fp_frame data)) eqn:Hacc.
  2: { rewrite on_push_frame_rejected in Hraise by exact Hacc. discriminate. }
  split; [reflexivity|].
  destruct (on_push_frame_accepted env data now w Hacc) as (_ & Hlog & _ & Hlast & Hcounts & _).
  pose proof (on_push_frame_effects env data now w Hacc) as Heff. cbv zeta in Heff.
  rewrite Hraise in Heff. destruct Heff as (Hsink & _ & Hpending).
  subst w'. rewrite Hcounts, get0_insert, String.eqb_refl.
  repeat split; assumption || reflexivity.
Qed.

Lemma raising_hook_effects_witness :
  let data := Doubles.pushed (Doubles.text_frame "hi") DOWNSTREAM in
  let w := new_world None 0%float in
  let w' := fst (on_push_frame (Doubles.strict float) data 1%float w) in
  snd (on_push_frame (Doubles.strict float) data 1%float w) = Raise ValueError
  /\ get0 (_frame_counts (observer w')) "TextFrame" = get0 (_frame_counts (observer w)) "TextFrame" + 1
  /\ sink w' = sink w
  /\ _pending_tasks (observer w') = _pending_tasks (observer w).
Proof.
  intros data w w'.
  assert (Hraise : snd (on_push_frame (Doubles.strict float) data 1%float w) = Raise ValueError)
    by (vm_compute; reflexivity).
  destruct (raising_hook_effects (Doubles.strict float) data 1%float w ValueError Hraise)
    as (_ & Hcount & _ & Hsink & Hpending & _).
  split; [exact Hraise|]. split; [exact Hcount|]. split; [exact Hsink | exact Hpending].
Defined.

(** X11: an accepted event on which the hook returns writes exactly one
    trace line to the sink and, with binary logging enabled, schedules
    exactly one background task, for that frame and with the label
    [downstream], [upstream] or [control] of its direction; with binary
    logging disabled it schedules none. *)
Theorem returning_hook_effects {T : Type} `{PyNum T} (env : Env T)
    (data : FramePushed) (now : T) (w : World T) :
  should_capture_frame (config (observer w)) (fp_frame data) = true ->
  snd (on_push_frame env data now w) = Return tt ->
  let w' := fst (on_push_frame env data now w) in
  let label := match fp_direction data with
               | DOWNSTREAM => "downstream"
               | UPSTREAM => "upstream"
               | NO_DIRECTION => "control"
               end in
  (exists line, sink w' = (sink w ++ [LogDebug line])%list)
  /\ if enable_binary_logging (config (observer w))
     then _pending_tasks (observer w')
          = <[next_task w := {| bg_frame := fp_frame data; bg_direction_label := label |}]>
              (_pending_tasks (observer w))
          /\ next_task w' = S (next_task w)
     else _pending_tasks (observer w') = _pending_tasks (observer w)
          /\ next_task w' = next_task w.
Proof.
  intros Hacc Hret w' label.
  pose proof (on_push_frame_effects env data now w Hacc) as Heff. cbv zeta in Heff.
  rewrite Hret in Heff. destruct Heff as ((content & _ & Hsink) & Htasks).
  split; [eexists; exact Hsink|].
  destruct (enable_binary_logging (config (observer w))).
  - destruct Htasks as [Hnext Hpending]. split; [|exact Hnext].
    subst w' label. rewrite Hpending. destruct (fp_direction data); reflexivity.
  - destruct Htasks as [Hnext Hpending]. split; assumption.
Qed.

Lemma returning_hook_effects_witness :
  let data := Doubles.pushed (Doubles.text_frame "hi") NO_DIRECTION in
  let w := new_world None 0%float in
  let w' := fst (on_push_frame (Doubles.quiet float) data 1%float w) in
  should_capture_frame (config (observer w)) (fp_frame data) = true
  /\ snd (on_push_frame (Doubles.quiet float) data 1%float w) = Return tt
  /\ _pending_tasks (observer w')
     = <[0%nat := {| bg_frame := fp_frame data; bg_direction_label := "control" |}]> ∅.
Proof.
  intros data w w'.
  assert (Hacc : should_capture_frame (config (observer w)) (fp_frame data) = true)
    by reflexivity.
  assert (Hret : snd (on_push_frame (Doubles.quiet float) data 1%float w) = Return tt)
    by (vm_compute; reflexivity).
  destruct (returning_hook_effects (Doubles.quiet float) data 1%float w Hacc Hret)
    as (_ & Hpending & _).
  split; [exact Hacc|]. split; [exact Hret | exact Hpending].
Defined.

(** X12: a background task whose frame does not serialize (the serializer
    raises, returns nothing or returns an empty payload), or whose payload
    makes the decoder raise, ends without any effect: the world after it is
    the world before it. *)
Theorem background_failure_is_silent {T : Type} `{PyNum T} (env : Env T)
    (frame : Frame) (label : string) (w : World T) :
  match serialize env frame with
  | Return (Some (b :: serialized)) =>
      match decode_protobuf (ParseFromString env) (json_loads env) (b :: serialized) with
      | Raise _ => fst (_background_serialize_and_log env frame label w) = w
      | Return _ => True
      end
  | _ => fst (_background_serialize_and_log env frame label w) = w
  end.
Proof.
  unfold _background_serialize_and_log, try_except_pass, mbind, Py_bind, lift.
  destruct (serialize env frame) as [[[|b serialized]|]|e]; try reflexivity.
  destruct (decode_protobuf _ _ _) as [decoded|e]; [exact I | reflexivity].
Qed.

(** X13: a background task whose frame serializes to a non-empty payload
    that decodes records it once, under the task's label and with the
    payload's length as size, and changes nothing else of the observer; the
    record stays even when the trace call on the sink raises, in which case
    only the trace entry is missing. *)
Theorem background_success_records {T : Type} `{PyNum T} (env : Env T)
    (frame : Frame) (label : string) (w : World T) :
  match serialize env frame with
  | Return (Some (b :: serialized)) =>
      match decode_protobuf (ParseFromString env) (json_loads env) (b :: serialized) with
      | Return decoded =>
          let w' := fst (_background_serialize_and_log env frame label w) in
          observer w'
          = set_protobuf_log
              (record (_protobuf_log (observer w)) label
                 (Z.of_nat (length (b :: serialized))) decoded)
              (observer w)
          /\ sink w' = match logger_trace env decoded with
                       | Some _ => sink w
                       | None => (sink w ++ [LogTrace decoded])%list
                       end
          /\ next_task w' = next_task w
      | Raise _ => True
      end
  | _ => True
  end.
Proof.
  unfold _background_serialize_and_log, try_except_pass, mbind, Py_bind, lift.
  destruct (serialize env frame) as [[[|b serialized]|]|e]; try exact I.
  destruct (decode_protobuf _ _ _) as [decoded|e]; [|exact I].
  unfold modify_self, log_trace.
  destruct (logger_trace env decoded); cbn; repeat split; reflexivity.
Qed.

(** ** Tags, names and display content *)

Section StringFacts.

Implicit Types (s old new : string) (n : nat).

Lemma string_length_app s1 s2 :
  String.length (s1 ++ s2) = (String.length s1 + String.length s2)%nat.
Proof.
  induction s1 as [|c s1 IH]; [reflexivity|].
  change (String c s1 ++ s2) with (String c (s1 ++ s2)).
  cbn [String.length]. rewrite IH. reflexivity.
Qed.

Lemma string_take_length_le n s : (String.length (string_take n s) <= n)%nat.
Proof.
  revert s. induction n as [|n IH]; intros s; [simpl; lia|].
  destruct s as [|c s]; simpl; [lia|]. specialize (IH s). lia.
Qed.

Lemma string_take_all n s : (String.length s <= n)%nat -> string_take n s = s.
Proof.
  revert s. induction n as [|n IH]; intros [|c s] Hlen; simpl in *; try reflexivity; try lia.
  rewrite IH by lia. reflexivity.
Qed.

Lemma prefix_length old s :
  String.prefix old s = true -> (String.length old <= String.length s)%nat.
Proof.
  revert s. induction old as [|c old IH]; intros s Hpre; simpl; [lia|].
  destruct s as [|c' s]; simpl in Hpre; [discriminate|].
  destruct (Ascii.ascii_dec c c'); [|discriminate].
  specialize (IH s Hpre). simpl. lia.
Qed.

(** Replacing by something no longer than what is replaced never
    lengthens; the characters still to be skipped are dropped on top. *)
Lemma replace_from_length old new s : forall skip,
  (String.length new <= String.length old)%nat ->
  (String.length (replace_from old new skip s) + Nat.min skip (String.length s)
   <= String.length s)%nat.
Proof.
  induction s as [|c rest IH]; intros skip Hnew; [simpl; lia|].
  destruct skip as [|k].
  - cbn [replace_from]. destruct (String.prefix old (String c rest)) eqn:Hpre.
    + apply prefix_length in Hpre. cbn [String.length] in *.
      rewrite string_length_app.
      specialize (IH (String.length old - 1)%nat Hnew). lia.
    + specialize (IH 0%nat Hnew). cbn [String.length]. lia.
  - cbn [replace_from String.length]. specialize (IH k Hnew). lia.
Qed.

Lemma py_replace_length old new s :
  (String.length new <= String.length old)%nat ->
  (String.length (py_replace old new s) <= String.length s)%nat.
Proof.
  intros Hnew. pose proof (replace_from_length old new s 0 Hnew). unfold py_replace. lia.
Qed.

Lemma truncate_length (limit : Z) s :
  0 <= limit -> Z.of_nat (String.length (truncate limit s)) <= limit + 3.
Proof.
  intros Hlimit. unfold truncate, py_slice_to.
  destruct (Z.gtb_spec (Z.of_nat (String.length s)) limit); [|lia].
  destruct (Z.ltb_spec limit 0); [lia|].
  rewrite string_length_app.
  pose proof (string_take_length_le (Z.to_nat limit) s).
  change (String.length "...") with 3%nat. lia.
Qed.

Lemma truncate_short (limit : Z) s :
  Z.of_nat (String.length s) <= limit -> truncate limit s = s.
Proof.
  intros Hlen. unfold truncate.
  destruct (Z.gtb_spec (Z.of_nat (String.length s)) limit); [lia | reflexivity].
Qed.

End StringFacts.

(** X14: the tag of a frame is at most 10 characters long; for a class
    listed in [_FRAME_TAGS] it is at most 9, so it fits the 9-column field
    of the trace line, and for any other class it is the first 10
    characters of the class name. *)
Theorem get_tag_width (frame : Frame) :
  (String.length (_get_tag frame) <= 10)%nat
  /\ match dict_get _FRAME_TAGS (cls_name (frame_class frame)) with
     | Some tag => _get_tag frame = tag /\ String.length (ljust 9 tag) = 9%nat
     | None => _get_tag frame = string_take 10 (cls_name (frame_class frame))
     end.
Proof.
  unfold _get_tag. cbv zeta.
  set (name := cls_name (frame_class frame)).
  assert (Hslice : py_slice_to 10 name = string_take 10 name) by reflexivity.
  pose proof (string_take_length_le 10 name) as Hten.
  unfold _FRAME_TAGS. cbn [dict_get].
  repeat match goal with
         | |- context [String.eqb ?k name] => destruct (String.eqb k name)
         end;
    (split; [first [exact (le_S _ _ (le_n_S _ _ (Nat.le_0_l _))) | vm_compute; lia
                   | rewrite Hslice; exact Hten]
            | first [split; reflexivity | exact Hslice]]).
Qed.

(** X15: [_format_processor_name] never lengthens a name: every rewrite of
    its table replaces a pattern by something shorter. *)
Theorem format_processor_name_length (name : string) :
  (String.length (_format_processor_name name) <= String.length name)%nat.
Proof.
  unfold _format_processor_name. cbv zeta.
  repeat match goal with
         | |- (String.length (py_replace ?old ?new ?s) <= _)%nat =>
             etransitivity; [apply (py_replace_length old new s); vm_compute; lia|]
         end.
  reflexivity.
Qed.

(** X16: with a non-negative [truncate_text_at], a frame that carries text
    is displayed as that text between double quotes, whole when it is no
    longer than the limit and otherwise cut, the part between the quotes
    being at most [truncate_text_at + 3] characters; extraction does not
    raise for such a frame. For a frame without text and without audio the
    content, when there is one, is at most [truncate_text_at + 3] characters
    long. *)
Theorem extract_content_bounded {T : Type} `{PyNum T} (env : Env T)
    (cfg : ObservabilityConfig) (frame : Frame) :
  0 <= truncate_text_at cfg ->
  match attr_text frame with
  | Some (String c rest) =>
      exists shown,
        _extract_content env cfg frame = Return (Some (dquote ++ shown ++ dquote))
        /\ Z.of_nat (String.length shown) <= truncate_text_at cfg + 3
        /\ (Z.of_nat (String.length (String c rest)) <= truncate_text_at cfg ->
            shown = String c rest)
  | _ =>
      attr_audio frame = None ->
      match _extract_content env cfg frame with
      | Return (Some content) =>
          Z.of_nat (String.length content) <= truncate_text_at cfg + 3
      | _ => True
      end
  end.
Proof.
  intros Hlimit. unfold _extract_content.
  destruct (attr_text frame) as [[|c rest]|].
  2: { exists (truncate (truncate_text_at cfg) (String c rest)). split; [reflexivity|].
       split; [apply truncate_length; exact Hlimit | apply truncate_short]. }
  all: intros ->;
    destruct (isinstance (frame_class frame) ["InputAudioRawFrame"; "OutputAudioRawFrame"]);
    destruct (attr_message frame) as [[| | | | | | |items]|]; try exact I;
    (destruct (json_dumps env (PyDict items)) as [compact|e];
     [apply truncate_length; exact Hlimit
     | destruct (caught_by [TypeError; ValueError] e); exact I]).
Qed.

Lemma extract_content_bounded_witness :
  let cfg := {| enabled := true; enable_binary_logging := true;
                enable_audio_capture := false; enable_text_capture := true;
                enable_timing_metrics := true; truncate_text_at := 3 |} in
  exists shown,
    _extract_content (Doubles.quiet float) cfg (Doubles.text_frame "hey")
    = Return (Some (dquote ++ shown ++ dquote))
    /\ Z.of_nat (String.length shown) <= 3 + 3
    /\ (Z.of_nat (String.length "hey") <= 3 -> shown = "hey").
Proof.
  apply (extract_content_bounded (Doubles.quiet float)
           {| enabled := true; enable_binary_logging := true;
              enable_audio_capture := false; enable_text_capture := true;
              enable_timing_metrics := true; truncate_text_at := 3 |}
           (Doubles.text_frame "hey")).
  simpl. lia.
Defined.

(** X17: after any sequence of events on a new observer, the previous
    timestamp is the clock reading of the last accepted event since the last
    reset (absent when there is none), whatever was rejected or completed in
    between, and the session start is the reading of the last reset, or of
    the construction when there was none. *)
Theorem timestamps_follow_accepted_events {T : Type} `{PyNum T} (env : Env T)
    (cfg0 : option ObservabilityConfig) (t0 : T) (evs : list (Event T)) :
  let o := observer (run env evs (new_world cfg0 t0)) in
  _last_frame_time o = last_accepted_time (default default_config cfg0) evs
  /\ _session_start o = session_start_time t0 evs.
Proof.
  induction evs as [|ev evs IH] using rev_ind; [split; reflexivity|].
  cbv zeta in *. destruct IH as [Hlast Hstart].
  destruct (session_invariant env cfg0 t0 evs) as (Hcfg & _).
  unfold last_accepted_time, session_start_time in *.
  rewrite run_snoc, !fold_left_app. cbn [fold_left].
  set (w := run env evs (new_world cfg0 t0)) in *.
  destruct ev as [data now|id|now]; cbn [step].
  - destruct (should_capture_frame (default default_config cfg0) (fp_frame data)) eqn:Hacc.
    + pose proof Hacc as Hacc'. rewrite <- Hcfg in Hacc'.
      destruct (on_push_frame_accepted env data now w Hacc') as (_ & _ & -> & -> & _).
      split; [reflexivity | exact Hstart].
    + pose proof Hacc as Hacc'. rewrite <- Hcfg in Hacc'.
      rewrite on_push_frame_rejected by exact Hacc'. split; assumption.
  - pose proof (run_task_statistics env id w) as Hstat. unfold statistics in Hstat.
    injection Hstat as _ -> _ _ ->. split; assumption.
  - split; reflexivity.
Qed.

(** X18: the capture policy gates by class membership, so an instance of a
    subclass of a gated class is gated like the class itself: with the
    policy enabled it is rejected when its base is an audio class and audio
    capture is disabled, or a text class and text capture is disabled. *)
Theorem subclass_is_gated (self : ObservabilityConfig) (frame : Frame) (base : string) :
  In base (cls_name (frame_class frame) :: cls_bases (frame_class frame)) ->
  (In base _AUDIO_FRAMES ->
   audio_class frame = true
   /\ (enable_audio_capture self = false -> should_capture_frame self frame = false))
  /\ (In base _TEXT_FRAMES ->
      text_class frame = true
      /\ (enable_text_capture self = false -> should_capture_frame self frame = false)).
Proof.
  intros Hbase.
  assert (Hmember : forall classes, In base classes ->
            isinstance (frame_class frame) classes = true).
  { intros classes Hin. unfold isinstance. apply existsb_exists.
    exists base. split; [exact Hbase|]. apply existsb_exists.
    exists base. split; [exact Hin | apply String.eqb_refl]. }
  split; intros Hin; pose proof (Hmember _ Hin) as Hclass.
  - split; [exact Hclass|]. intros Hoff. unfold should_capture_frame.
    fold (audio_class frame). unfold audio_class. rewrite Hclass, Hoff.
    destruct (enabled self); reflexivity.
  - split; [exact Hclass|]. intros Hoff. unfold should_capture_frame.
    rewrite Hclass, Hoff.
    destruct (enabled self); [|reflexivity].
    destruct (isinstance (frame_class frame) _AUDIO_FRAMES && negb (enable_audio_capture self));
      reflexivity.
Qed.

Lemma subclass_is_gated_witness :
  let frame := {| frame_class := Doubles.class_of "TTSAudioRawFrame"
                                   ["OutputAudioRawFrame"; "DataFrame"; "AudioRawFrame"; "Frame"];
                  attr_text := None; attr_audio := Some [Byte.x00];
                  attr_sample_rate := Some 24000; attr_message := None |} in
  In "OutputAudioRawFrame" (cls_name (frame_class frame) :: cls_bases (frame_class frame))
  /\ audio_class frame = true
  /\ should_capture_frame default_config frame = false.
Proof.
  intros frame.
  assert (Hbase : In "OutputAudioRawFrame"
                    (cls_name (frame_class frame) :: cls_bases (frame_class frame)))
    by (simpl; auto).
  destruct (subclass_is_gated default_config frame "OutputAudioRawFrame" Hbase) as [Haudio _].
  destruct Haudio as [Hclass Hrej]; [simpl; auto|].
  split; [exact Hbase|]. split; [exact Hclass | apply Hrej; reflexivity].
Defined.
